(** * CRSLab: batching utilities, data-loader contract and metric evaluators

    A shallow embedding of

    - [crslab/data/dataloader/base_dataloader.py]
      ([padded_tensor], [batch_split], [truncate], [BaseDataLoader]),
    - [crslab/evaluator/rec_evaluator.py] ([RecEvaluator]),
    - [crslab/evaluator/conv_evaluator.py] ([ConvEvaluator]),

    together with the properties of these functions.

    Conventions of the embedding.

    - A Python [int] is a [Z]; [len] of a list is [Z.of_nat (length l)].
    - A Python list is a [list]; a [str] is a [string]; a tuple of
      characters (an n-gram of a [str]) is a [list ascii].
    - A call either returns or raises: [result A] is [Ok a] or [Raise e].
      A method that mutates [self] returns the new state next to its
      outcome, so the mutations made before an exception are kept.
    - A generator is the list of the values it yields followed by the way
      it stops: exhausted, or the exception it raises.
    - [math.ceil(a / b)] is the ceiling of the binary64 quotient, with
      its rounding; an entry of a [torch.long] tensor is a 64-bit signed
      integer, and storing a value outside that range raises.  Memory is
      not bounded. *)

From Stdlib Require Import ZArith List String Ascii Lia Permutation QArith.
From stdpp Require Import base list gmap strings numbers pretty.

Open Scope Z_scope.

(** ** Exceptions and results *)

Inductive exn : Type :=
  | ValueError
  | IndexError
  | RuntimeError
  | ZeroDivisionError
  | NotImplementedError
  | AttributeError
  | StopIteration.

Inductive result (A : Type) : Type :=
  | Ok (a : A)
  | Raise (e : exn).

Arguments Ok {A} a.
Arguments Raise {A} e.

Definition bind {A B : Type} (r : result A) (k : A -> result B) : result B :=
  match r with
  | Ok a => k a
  | Raise e => Raise e
  end.

Notation "'try!' x ':=' r 'in' k" := (bind r (fun x => k))
  (at level 10, x name, r at level 100, k at level 200).

Definition is_ok {A : Type} (r : result A) : Prop := exists a, r = Ok a.

(** ** Python built-ins used by the sources *)

Module Py.

(** [len(l)] *)
Definition len {A : Type} (l : list A) : Z := Z.of_nat (length l).

(** A slice bound [i] on a sequence of length [n], as [slice.indices]
    computes it for step 1: a negative bound counts from the end, and the
    result is clamped to [0 .. n]. *)
Definition clamp (n i : Z) : Z :=
  if i <? 0 then Z.max (i + n) 0 else Z.min i n.

Definition lower (n : Z) (start : option Z) : Z :=
  match start with None => 0 | Some i => clamp n i end.

Definition upper (n : Z) (stop : option Z) : Z :=
  match stop with None => n | Some j => clamp n j end.

(** [l[start:stop]]; [None] is an omitted bound. *)
Definition slice {A : Type} (l : list A) (start stop : option Z) : list A :=
  let lo := lower (len l) start in
  let hi := upper (len l) stop in
  take (Z.to_nat (hi - lo)) (drop (Z.to_nat lo) l).

(** [l[i]] for a list, with negative indices counted from the end. *)
Definition getitem {A : Type} (l : list A) (i : Z) : result A :=
  let j := if i <? 0 then i + len l else i in
  if j <? 0 then Raise IndexError
  else match l !! Z.to_nat j with
       | Some x => Ok x
       | None => Raise IndexError
       end.

(** [range(lo, hi)] and [range(n)] *)
Definition range2 (lo hi : Z) : list Z :=
  map (fun i => lo + Z.of_nat i) (seq 0 (Z.to_nat (hi - lo))).

Definition range (n : Z) : list Z := range2 0 n.

(** The truth value of a [str]: false exactly for the empty string. *)
Definition truthy (s : string) : bool :=
  match s with
  | EmptyString => false
  | String _ _ => true
  end.

(** [max(l)] of a list of integers; [ValueError] on the empty list. *)
Definition max (l : list Z) : result Z :=
  match l with
  | [] => Raise ValueError
  | x :: l' => Ok (fold_left Z.max l' x)
  end.

(** The integer nearest to [n / d], for [n >= 0] and [d > 0]; a tie goes
    to the even neighbour. *)
Definition round_half_even (n d : Z) : Z :=
  let q := n / d in
  let r := n mod d in
  if 2 * r <? d then q
  else if d <? 2 * r then q + 1
  else if Z.even q then q else q + 1.

(** [floor(log2(a / b))] for [a > 0] and [b > 0]. *)
Definition quot_log2 (a b : Z) : Z :=
  let d := Z.log2 a - Z.log2 b in
  if 0 <=? d
  then (if b * 2 ^ d <=? a then d else d - 1)
  else (if b <=? a * 2 ^ (- d) then d else d - 1).

(** The float [a / b] of two integers [a >= 0] and [b > 0]: the binary64
    number nearest to the quotient, as a mantissa [m] and an exponent [e]
    with value [m * 2 ^ e].  A normal result has 53 bits of mantissa; the
    exponent does not go below -1074, so a small quotient loses bits and
    one of at most [2 ^ -1075] becomes 0. *)
Definition float_quot (a b : Z) : Z * Z :=
  let e := Z.max (quot_log2 a b - 52) (-1074) in
  let m := if e <? 0 then round_half_even (a * 2 ^ (- e)) b
           else round_half_even a (b * 2 ^ e) in
  (m, e).

(** [ceil(a / b)] for integers [a] and [b]: the ceiling of the float
    quotient.  The sign is that of the exact quotient and the magnitude
    is rounded as in [float_quot].  The numerator is a length, so the
    quotient is never too large for a float. *)
Definition ceil_div (a b : Z) : result Z :=
  if b =? 0 then Raise ZeroDivisionError
  else
    let '(m, e) := float_quot (Z.abs a) (Z.abs b) in
    let negative := xorb (a <? 0) (b <? 0) in
    Ok (if 0 <=? e
        then (if negative then - (m * 2 ^ e) else m * 2 ^ e)
        else (if negative then - (m / 2 ^ (- e)) else - ((- m) / 2 ^ (- e)))).

(** [a / b], true division of two integers, taken exactly. *)
Definition truediv (a b : Z) : result Q :=
  if b =? 0 then Raise ZeroDivisionError
  else Ok (Qdiv (inject_Z a) (inject_Z b)).

(** [enumerate(l)] *)
Definition enumerate {A : Type} (l : list A) : list (nat * A) :=
  zip (seq 0 (length l)) l.

(** [[f(x) for x in l]] where [f] may raise. *)
Fixpoint list_comp {A B : Type} (f : A -> result B) (l : list A) : result (list B) :=
  match l with
  | [] => Ok []
  | x :: l' => try! y := f x in try! ys := list_comp f l' in Ok (y :: ys)
  end.

End Py.

(** ** [truncate] *)

(** [truncate(vec, max_length, truncate_tail=True)]; Python's
    [max_length=None] is [None] here, an integer bound [m] is [Some m]. *)
Definition truncate {A : Type} (vec : list A) (max_length : option Z)
    (truncate_tail : bool) : list A :=
  match max_length with
  | None => vec
  | Some m =>
      if Py.len vec <=? m then vec
      else if truncate_tail then Py.slice vec None (Some m)
      else Py.slice vec (Some (- m)) None
  end.

(** ** [padded_tensor] *)

(** The part of [torch] that [padded_tensor] uses, on integer tensors: a
    one-dimensional tensor is a [list Z], a matrix the list of its rows.
    An entry of a [torch.long] tensor is a 64-bit integer, and so is a
    size; a Python integer outside this range is refused when it is
    turned into an entry or a size.  The memory that a tensor takes is
    not a bound in this model. *)
Module Torch.

(** The range of [torch.long]. *)
Definition int64 (z : Z) : Prop :=
  -9223372036854775808 <= z < 9223372036854775808.

#[global] Instance int64_dec (z : Z) : Decision (int64 z).
Proof. unfold int64. apply _. Defined.

(** [torch.LongTensor(n, t)] followed by [fill_(v)], where [n] is the
    length of a list: the row size [t] and the value [v] must be in the
    range.  A value outside the range makes the call raise; the exception
    is taken to be the [RuntimeError] of torch's overflow check. *)
Definition full (n t v : Z) : result (list (list Z)) :=
  if decide (int64 t)
  then (if decide (int64 v)
        then Ok (replicate (Z.to_nat n) (replicate (Z.to_nat t) v))
        else Raise RuntimeError)
  else Raise RuntimeError.

(** [torch.tensor(item, dtype=torch.long)] of a list of integers. *)
Definition tensor (item : list Z) : result (list Z) :=
  if decide (Forall int64 item) then Ok item else Raise RuntimeError.

(** [row[start:stop] = item]: the slice selects a slot of [row]; an item
    of the slot's size is copied into it, an item of size 1 is broadcast
    over it, and any other size is a shape mismatch. *)
Definition slice_assign (row : list Z) (start stop : option Z)
    (item : list Z) : result (list Z) :=
  let lo := Py.lower (Py.len row) start in
  let hi := Py.upper (Py.len row) stop in
  let size := Z.to_nat (hi - lo) in
  let before := take (Z.to_nat lo) row in
  let after := drop (Z.to_nat lo + size) row in
  if decide (length item = size) then Ok (before ++ item ++ after)
  else match item with
       | [x] => Ok (before ++ replicate size x ++ after)
       | _ => Raise RuntimeError
       end.

(** [output[i, start:stop] = item] *)
Definition setitem (output : list (list Z)) (i : nat) (start stop : option Z)
    (item : list Z) : result (list (list Z)) :=
  match output !! i with
  | None => Raise IndexError
  | Some row =>
      try! row' := slice_assign row start stop item in
      Ok (<[i := row']> output)
  end.

End Torch.

(** The loop [for i, (item, length) in enumerate(zip(items, lens))]. *)
Fixpoint fill_rows (right_padded : bool) (t : Z)
    (rows : list (nat * (list Z * Z))) (output : list (list Z))
    : result (list (list Z)) :=
  match rows with
  | [] => Ok output
  | (i, (item, length)) :: rows' =>
      if length =? 0 then fill_rows right_padded t rows' output
      else
        try! item := Torch.tensor item in
        try! output' :=
          (if right_padded
           then Torch.setitem output i None (Some length) item
           else Torch.setitem output i (Some (t - length)) None item) in
        fill_rows right_padded t rows' output'
  end.

(** [padded_tensor(items, pad_idx=0, right_padded=True, max_len=None)]
    for items that are lists of integers. *)
Definition padded_tensor (items : list (list Z)) (pad_idx : Z)
    (right_padded : bool) (max_len : option Z) : result (list (list Z)) :=
  let n := Py.len items in
  let lens := map Py.len items in
  try! t := match max_len with
            | None => Py.max lens
            | Some m => Ok m
            end in
  let t := Z.max t 1 in
  try! _ := Py.getitem items 0 in
  try! output := Torch.full n t pad_idx in
  fill_rows right_padded t (Py.enumerate (zip items lens)) output.

(** The width of the matrix: [max(max_len, 1)], and [max(longest, 1)]
    when [max_len] is [None]. *)
Definition width (items : list (list Z)) (max_len : option Z) : Z :=
  Z.max (match max_len with
         | None => foldr Z.max 0 (map Py.len items)
         | Some m => m
         end) 1.

(** Row [i] of the result: the item next to its padding. *)
Definition padded_row (right_padded : bool) (t pad_idx : Z) (item : list Z)
    : list Z :=
  let padding := replicate (Z.to_nat t - length item)%nat pad_idx in
  if right_padded then item ++ padding else padding ++ item.

(** ** Generators *)

(** What a generator does when it is run to its end: the values it
    yields, then [None] when it is exhausted or the exception it raises. *)
Record generator (B : Type) : Type := Gen {
  yielded : list B;
  stopped : option exn
}.

Arguments Gen {B} yielded stopped.
Arguments yielded {B} g.
Arguments stopped {B} g.

(** [next(g)] on a generator that has not been advanced yet. *)
Definition next {B : Type} (g : generator B) : result B :=
  match yielded g, stopped g with
  | b :: _, _ => Ok b
  | [], Some e => Raise e
  | [], None => Raise StopIteration
  end.

(** The loop [for x in xs: yield body(x)] over the values [xs] of an
    inner iterator that stops with [stop]. *)
Fixpoint yield_each {A B : Type} (body : A -> result B) (xs : list A)
    (stop : option exn) : generator B :=
  match xs with
  | [] => Gen [] stop
  | x :: xs' =>
      match body x with
      | Raise e => Gen [] (Some e)
      | Ok b =>
          let g := yield_each body xs' stop in
          Gen (b :: yielded g) (stopped g)
      end
  end.

Definition yield_from {A B : Type} (body : A -> result B) (g : generator A)
    : generator B :=
  yield_each body (yielded g) (stopped g).

(** ** [batch_split] and [BaseDataLoader] *)

Section DataLoader.

(** [random.shuffle], as the rearrangement it makes of the index list. *)
Variable random_shuffle : list Z -> list Z.

Section BatchSplit.

Context {A : Type}.

(** [batch_split(dataset, batch_size, shuffle=False)] *)
Definition batch_split (dataset : list A) (batch_size : Z) (shuffle : bool)
    : generator (list A) :=
  match Py.ceil_div (Py.len dataset) batch_size with
  | Raise e => Gen [] (Some e)
  | Ok batch_num =>
      let idx_list := Py.range (Py.len dataset) in
      let idx_list := if shuffle then random_shuffle idx_list else idx_list in
      yield_each
        (fun start_idx =>
           let batch_idx :=
             Py.slice idx_list (Some (start_idx * batch_size))
                      (Some ((start_idx + 1) * batch_size)) in
           Py.list_comp (fun idx => Py.getitem dataset idx) batch_idx)
        (Py.range batch_num) None
  end.

End BatchSplit.

(** The state of a [BaseDataLoader]: [opt] and [dataset]. *)
Record BaseDataLoader (Opt A : Type) : Type := {
  opt : Opt;
  dataset : list A
}.

Arguments opt {Opt A} _.
Arguments dataset {Opt A} _.

(** The methods a concrete dataloader may override. *)
Record DataLoaderMethods (Opt A B : Type) : Type := {
  conv_process_fn : BaseDataLoader Opt A -> result (list A);
  conv_batchify : BaseDataLoader Opt A -> list A -> result B;
  rec_process_fn : BaseDataLoader Opt A -> result (list A);
  rec_batchify : BaseDataLoader Opt A -> list A -> result B;
  guide_process_fn : BaseDataLoader Opt A -> result (list A);
  guide_batchify : BaseDataLoader Opt A -> list A -> result B
}.

Arguments conv_process_fn {Opt A B} _ _.
Arguments conv_batchify {Opt A B} _ _ _.
Arguments rec_process_fn {Opt A B} _ _.
Arguments rec_batchify {Opt A B} _ _ _.
Arguments guide_process_fn {Opt A B} _ _.
Arguments guide_batchify {Opt A B} _ _ _.

Section Loader.

Context {Opt A B : Type}.

(** The methods as [BaseDataLoader] itself defines them. *)
Definition base_methods : DataLoaderMethods Opt A B := {|
  conv_process_fn := fun self => Ok (dataset self);
  conv_batchify := fun _ _ => Raise NotImplementedError;
  rec_process_fn := fun self => Ok (dataset self);
  rec_batchify := fun _ _ => Raise NotImplementedError;
  guide_process_fn := fun self => Ok (dataset self);
  guide_batchify := fun _ _ => Raise NotImplementedError
|}.

(** [get_data(self, batch_fn, batch_size, shuffle=True, process_fn=None)] *)
Definition get_data (self : BaseDataLoader Opt A)
    (batch_fn : list A -> result B) (batch_size : Z) (shuffle : bool)
    (process_fn : option (BaseDataLoader Opt A -> result (list A)))
    : generator B :=
  let dataset0 := Ok (dataset self) in
  let dataset1 :=
    match process_fn with
    | Some f => f self
    | None => dataset0
    end in
  match dataset1 with
  | Raise e => Gen [] (Some e)
  | Ok ds => yield_from batch_fn (batch_split ds batch_size shuffle)
  end.

Variable methods : DataLoaderMethods Opt A B.

Definition get_conv_data (self : BaseDataLoader Opt A) (batch_size : Z)
    (shuffle : bool) : generator B :=
  get_data self (conv_batchify methods self) batch_size shuffle
           (Some (conv_process_fn methods)).

Definition get_rec_data (self : BaseDataLoader Opt A) (batch_size : Z)
    (shuffle : bool) : generator B :=
  get_data self (rec_batchify methods self) batch_size shuffle
           (Some (rec_process_fn methods)).

Definition get_guide_data (self : BaseDataLoader Opt A) (batch_size : Z)
    (shuffle : bool) : generator B :=
  get_data self (guide_batchify methods self) batch_size shuffle
           (Some (guide_process_fn methods)).

End Loader.

End DataLoader.

Arguments opt {Opt A} _.
Arguments dataset {Opt A} _.
Arguments conv_process_fn {Opt A B} _ _.
Arguments conv_batchify {Opt A B} _ _ _.
Arguments rec_process_fn {Opt A B} _ _.
Arguments rec_batchify {Opt A B} _ _ _.
Arguments guide_process_fn {Opt A B} _ _.
Arguments guide_batchify {Opt A B} _ _ _.

(** ** The metrics library *)

(** Modelled from the spec: the module [crslab/evaluator/metrics] is not
    among the sources; the spec lists it as the "Metrics library (external
    dependency, referenced not defined here) — per-example metric
    computation (F1, BLEU, distinct-n, embedding similarity,
    hit/NDCG/MRR)".  Each [compute] is a total function into a type of
    metric values, and [Vec] is the type of the word vectors of the
    embedding model. *)
Class MetricLib : Type := {
  Metric : Type;
  Vec : Type;
  AverageMetric : Q -> Metric;
  F1Metric_compute : string -> list string -> Metric;
  BleuMetric_compute : string -> list string -> Z -> Metric;
  GreedyMatch_compute : list Vec -> list (list Vec) -> Metric;
  EmbeddingAverage_compute : list Vec -> list (list Vec) -> Metric;
  VectorExtrema_compute : list Vec -> list (list Vec) -> Metric;
  HitMetric_compute : list Z -> Z -> Z -> Metric;
  NDCGMetric_compute : list Z -> Z -> Z -> Metric;
  MRRMetric_compute : list Z -> Z -> Z -> Metric
}.

(** Modelled from the spec: the class [Metrics] of the same module, the
    "metric accumulator: object collecting per-example metric values and
    producing an aggregate report at evaluation end".  The accumulator is
    the sequence of the values added so far, each under its key, oldest
    first; [clear] empties it. *)
Module Metrics.

Definition t (M : Type) : Type := list (string * M).

Definition new {M : Type} : t M := [].

Definition add {M : Type} (key : string) (value : M) (self : t M) : t M :=
  self ++ [(key, value)].

Definition clear {M : Type} (self : t M) : t M := [].

End Metrics.

(** ** Library functions used by [ConvEvaluator] *)

(** [str.split()] without arguments: the maximal runs of characters that
    are not white space.  A string is a sequence of characters with code
    points below 256, of which Python takes 9 to 13, 28 to 32, 133 and 160
    as white space. *)
Module Str.

Definition is_space (c : ascii) : bool :=
  let n := nat_of_ascii c in
  ((n =? 32) || ((9 <=? n) && (n <=? 13)) || ((28 <=? n) && (n <=? 31))
   || (n =? 133) || (n =? 160))%nat.

Definition flush (cur : list ascii) : list string :=
  match cur with
  | [] => []
  | _ => [string_of_list_ascii (rev cur)]
  end.

Fixpoint split_go (s : string) (cur : list ascii) : list string :=
  match s with
  | EmptyString => flush cur
  | String c s' =>
      if is_space c then flush cur ++ split_go s' []
      else split_go s' (c :: cur)
  end.

Definition split (s : string) : list string := split_go s [].

End Str.

(** [nltk.ngrams(sequence, n)]: the windows of [n] consecutive elements,
    from left to right; none when the sequence is shorter than [n]. *)
Module Nltk.

Fixpoint ngrams {A : Type} (sequence : list A) (n : nat) : list (list A) :=
  match sequence with
  | [] => []
  | _ :: rest =>
      if decide (n <= length sequence)%nat
      then take n sequence :: ngrams rest n
      else []
  end.

End Nltk.

(** [collections.defaultdict(set)], with its keys in insertion order. *)
Module DefaultDict.

Section Dict.

Context {T : Type} `{Countable T}.

Definition t : Type := list (string * gset T).

(** [d[key].add(token)]: a missing key is first bound to the empty set. *)
Fixpoint add (key : string) (token : T) (d : t) : t :=
  match d with
  | [] => [(key, {[ token ]})]
  | (k, v) :: d' =>
      if decide (k = key) then (k, v ∪ {[ token ]}) :: d'
      else (k, v) :: add key token d'
  end.

Definition clear (d : t) : t := [].

End Dict.

Arguments t T {_ _}.

End DefaultDict.

(** ** [RecEvaluator] *)

Module RecEvaluator.

Section Evaluator.

Context `{MetricLib}.

Record t : Type := {
  rec_metrics : Metrics.t Metric;
  optim_metrics : Metrics.t Metric
}.

(** [__init__] *)
Definition init : t := {|
  rec_metrics := Metrics.new;
  optim_metrics := Metrics.new
|}.

Definition rec_metrics_add (key : string) (value : Metric) (self : t) : t :=
  {| rec_metrics := Metrics.add key value (rec_metrics self);
     optim_metrics := optim_metrics self |}.

(** The body of the loop of [rec_evaluate] for one [k]. *)
Definition rec_evaluate_at (ranks : list Z) (label : Z) (self : t) (k : Z) : t :=
  if Py.len ranks >=? k then
    let self := rec_metrics_add ("hit@" +:+ pretty k)
                  (HitMetric_compute ranks label k) self in
    let self := rec_metrics_add ("ndcg@" +:+ pretty k)
                  (NDCGMetric_compute ranks label k) self in
    let self := rec_metrics_add ("mrr@" +:+ pretty k)
                  (MRRMetric_compute ranks label k) self in
    self
  else self.

(** [rec_evaluate(self, ranks, label)] *)
Definition rec_evaluate (self : t) (ranks : list Z) (label : Z) : t :=
  foldl (rec_evaluate_at ranks label) self [1; 10; 50].

(** [reset_metrics(self)] *)
Definition reset_metrics (self : t) : t :=
  {| rec_metrics := Metrics.clear (rec_metrics self);
     optim_metrics := Metrics.clear (optim_metrics self) |}.

End Evaluator.

End RecEvaluator.

(** ** [ConvEvaluator] *)

Module ConvEvaluator.

Section Evaluator.

Context `{MetricLib}.

(** The attributes of the object.  [ft] is the embedding model, a map
    from words to vectors; the attribute does not exist until
    [_load_embedding] has set it, which is [None] here. *)
Record t : Type := {
  dist_set : DefaultDict.t (list ascii);
  dist_cnt : Z;
  gen_metrics : Metrics.t Metric;
  optim_metrics : Metrics.t Metric;
  ft : option (string -> Vec)
}.

(** [__init__] *)
Definition init : t := {|
  dist_set := [];
  dist_cnt := 0;
  gen_metrics := Metrics.new;
  optim_metrics := Metrics.new;
  ft := None
|}.

(** [_load_embedding], by the model it loads. *)
Definition load_embedding (model : string -> Vec) (self : t) : t :=
  {| dist_set := dist_set self;
     dist_cnt := dist_cnt self;
     gen_metrics := gen_metrics self;
     optim_metrics := optim_metrics self;
     ft := Some model |}.

Definition gen_metrics_add (key : string) (value : Metric) (self : t) : t :=
  {| dist_set := dist_set self;
     dist_cnt := dist_cnt self;
     gen_metrics := Metrics.add key value (gen_metrics self);
     optim_metrics := optim_metrics self;
     ft := ft self |}.

Definition dist_set_add (key : string) (token : list ascii) (self : t) : t :=
  {| dist_set := DefaultDict.add key token (dist_set self);
     dist_cnt := dist_cnt self;
     gen_metrics := gen_metrics self;
     optim_metrics := optim_metrics self;
     ft := ft self |}.

Definition dist_cnt_incr (self : t) : t :=
  {| dist_set := dist_set self;
     dist_cnt := dist_cnt self + 1;
     gen_metrics := gen_metrics self;
     optim_metrics := optim_metrics self;
     ft := ft self |}.

(** [self.ft[token]]: reading the attribute fails before
    [_load_embedding] has set it. *)
Definition ft_getitem (self : t) (token : string) : result Vec :=
  match ft self with
  | None => Raise AttributeError
  | Some model => Ok (model token)
  end.

(** [_get_sent_embedding(self, sent)]: [self.ft] is read once for each
    token, so a sentence without tokens gives the empty list whether or
    not the model is loaded. *)
Definition get_sent_embedding (self : t) (sent : string) : result (list Vec) :=
  Py.list_comp (ft_getitem self) (Str.split sent).

(** The body of the loop [for k in range(1, 5)] of [gen_evaluate]. *)
Definition gen_evaluate_at (hyp : string) (refs : list string) (self : t)
    (k : Z) : t :=
  let self := gen_metrics_add ("bleu@" +:+ pretty k)
                (BleuMetric_compute hyp refs k) self in
  foldl (fun self token => dist_set_add ("dist@" +:+ pretty k) token self)
        self
        (Nltk.ngrams (list_ascii_of_string hyp) (Z.to_nat k)).

(** [gen_evaluate(self, hyp, refs)]: the object after the call, and how
    the call ends. *)
Definition gen_evaluate (self : t) (hyp : string) (refs : list string)
    : t * result unit :=
  if Py.truthy hyp then
    let self := gen_metrics_add "f1" (F1Metric_compute hyp refs) self in
    let self := foldl (gen_evaluate_at hyp refs) self (Py.range2 1 5) in
    let self := dist_cnt_incr self in
    match get_sent_embedding self hyp with
    | Raise e => (self, Raise e)
    | Ok hyp_emb =>
        match Py.list_comp (get_sent_embedding self) refs with
        | Raise e => (self, Raise e)
        | Ok ref_embs =>
            let self := gen_metrics_add "greedy"
                          (GreedyMatch_compute hyp_emb ref_embs) self in
            let self := gen_metrics_add "average"
                          (EmbeddingAverage_compute hyp_emb ref_embs) self in
            let self := gen_metrics_add "extreme"
                          (VectorExtrema_compute hyp_emb ref_embs) self in
            (self, Ok tt)
        end
    end
  else (self, Ok tt).

(** The loop [for k, v in self.dist_set.items()] of [report]. *)
Fixpoint report_loop (items : list (string * gset (list ascii))) (self : t)
    : t * result unit :=
  match items with
  | [] => (self, Ok tt)
  | (k, v) :: items' =>
      match Py.truediv (Z.of_nat (size v)) (dist_cnt self) with
      | Raise e => (self, Raise e)
      | Ok q => report_loop items' (gen_metrics_add k (AverageMetric q) self)
      end
  end.

(** [report(self)]; the text sent to the logger is not part of the
    model. *)
Definition report (self : t) : t * result unit :=
  report_loop (dist_set self) self.

(** [reset_metrics(self)] *)
Definition reset_metrics (self : t) : t :=
  {| dist_set := DefaultDict.clear (dist_set self);
     dist_cnt := 0;
     gen_metrics := Metrics.clear (gen_metrics self);
     optim_metrics := Metrics.clear (optim_metrics self);
     ft := ft self |}.

(** The objects that calls of the methods can produce from a new one. *)
Inductive reachable : t -> Prop :=
  | reach_init : reachable init
  | reach_load_embedding model self :
      reachable self -> reachable (load_embedding model self)
  | reach_gen_evaluate self hyp refs :
      reachable self -> reachable (fst (gen_evaluate self hyp refs))
  | reach_report self :
      reachable self -> reachable (fst (report self))
  | reach_reset_metrics self :
      reachable self -> reachable (reset_metrics self).

(** The objects that only [gen_evaluate] calls produce from a new one. *)
Inductive evaluated : t -> Prop :=
  | eval_init : evaluated init
  | eval_gen_evaluate self hyp refs :
      evaluated self -> evaluated (fst (gen_evaluate self hyp refs)).

End Evaluator.

End ConvEvaluator.

(** ** [merge_utt] *)

(** [merge_utt(conv)], the comprehension
    [[token for utt in conv for token in utt]]. *)
Definition merge_utt {A : Type} (conv : list (list A)) : list A :=
  flat_map (fun utt => flat_map (fun token => [token]) utt) conv.

(** ** [get_onehot_label] *)

(** The part of [torch] that [get_onehot_label] uses, on one-dimensional
    tensors of floats.  An entry is a rational: the quotient
    [1.0 / len(label_list)] is taken exactly, its rounding to a float is
    not modelled. *)
Module TorchFloat.

(** [torch.zeros(n)]; a negative size is refused. *)
Definition zeros (n : Z) : result (list Q) :=
  if n <? 0 then Raise RuntimeError
  else Ok (replicate (Z.to_nat n) (inject_Z 0)).

(** The position that an index [i] names in a tensor of [n] entries: a
    negative index counts from the end. *)
Definition position (n i : Z) : Z := if i <? 0 then i + n else i.

(** [tensor[i] = v] *)
Definition set_index (tensor : list Q) (i : Z) (v : Q) : result (list Q) :=
  let j := position (Py.len tensor) i in
  if (j <? 0) || (Py.len tensor <=? j) then Raise IndexError
  else Ok (<[Z.to_nat j := v]> tensor).

(** [torch.stack(tensors, dim=0)]: the list must not be empty and the
    tensors must have one size. *)
Definition stack (tensors : list (list Q)) : result (list (list Q)) :=
  match tensors with
  | [] => Raise RuntimeError
  | first :: _ =>
      if forallb (fun tensor => Nat.eqb (length tensor) (length first)) tensors
      then Ok tensors
      else Raise RuntimeError
  end.

End TorchFloat.

(** The loop [for label in label_list] of [get_onehot_label]; [size] is
    [len(label_list)]. *)
Fixpoint set_labels (size : Z) (labels : list Z) (onehot_label : list Q)
    : result (list Q) :=
  match labels with
  | [] => Ok onehot_label
  | label :: labels' =>
      try! v := Py.truediv 1 size in
      try! onehot_label' := TorchFloat.set_index onehot_label label v in
      set_labels size labels' onehot_label'
  end.

(** The body of the loop [for label_list in label_lists]. *)
Definition onehot_of (categories : Z) (label_list : list Z) : result (list Q) :=
  try! onehot_label := TorchFloat.zeros categories in
  set_labels (Py.len label_list) label_list onehot_label.

(** [get_onehot_label(label_lists, categories)] *)
Definition get_onehot_label (label_lists : list (list Z)) (categories : Z)
    : result (list (list Q)) :=
  try! onehot_labels := Py.list_comp (onehot_of categories) label_lists in
  TorchFloat.stack onehot_labels.


(** ** A metrics library for the examples *)

(** Metric values are rationals; a word vector is the length of the word;
    a metric of a hypothesis counts its characters, a metric of a ranking
    tells whether the label is among the first [k] ranks. *)
Definition example_metrics : MetricLib := {|
  Metric := Q;
  Vec := Z;
  AverageMetric := fun q => q;
  F1Metric_compute := fun hyp _ => inject_Z (Z.of_nat (String.length hyp));
  BleuMetric_compute := fun hyp _ k => inject_Z (Z.of_nat (String.length hyp) + k);
  GreedyMatch_compute := fun hyp_emb _ => inject_Z (Py.len hyp_emb);
  EmbeddingAverage_compute := fun hyp_emb _ => inject_Z (Py.len hyp_emb);
  VectorExtrema_compute := fun hyp_emb _ => inject_Z (Py.len hyp_emb);
  HitMetric_compute := fun ranks label k =>
    inject_Z (if bool_decide (label ∈ take (Z.to_nat k) ranks) then 1 else 0);
  NDCGMetric_compute := fun ranks label k =>
    inject_Z (if bool_decide (label ∈ take (Z.to_nat k) ranks) then 1 else 0);
  MRRMetric_compute := fun ranks label k =>
    inject_Z (if bool_decide (label ∈ take (Z.to_nat k) ranks) then 1 else 0)
|}.

(** The embedding model of the examples: a word's vector is its length. *)
Definition example_model : string -> Z :=
  fun word => Z.of_nat (String.length word).

(** * Properties *)

(** ** Slices *)

Lemma len_nonneg {A : Type} (l : list A) : 0 <= Py.len l.
Proof. unfold Py.len. lia. Qed.

(** [l[:m]] for [m >= 0] is the first [m] elements. *)
Lemma slice_prefix {A : Type} (l : list A) (m : Z) :
  0 <= m -> Py.slice l None (Some m) = take (Z.to_nat m) l.
Proof.
  intros Hm. unfold Py.slice, Py.lower, Py.upper, Py.clamp, Py.len.
  destruct (Z.ltb_spec m 0) as [?|_]; [lia|].
  rewrite Z.sub_0_r. change (Z.to_nat 0) with 0%nat. rewrite drop_0.
  destruct (Z.le_gt_cases m (Z.of_nat (length l))) as [Hle|Hgt].
  - by rewrite Z.min_l.
  - rewrite Z.min_r by lia. rewrite Nat2Z.id.
    rewrite (take_ge l (length l)) by lia.
    by rewrite (take_ge l (Z.to_nat m)) by lia.
Qed.

(** [l[-m:]] for [m >= 1] is the last [m] elements. *)
Lemma slice_suffix {A : Type} (l : list A) (m : Z) :
  1 <= m -> Py.slice l (Some (- m)) None = drop (length l - Z.to_nat m) l.
Proof.
  intros Hm. unfold Py.slice, Py.lower, Py.upper, Py.clamp, Py.len.
  destruct (Z.ltb_spec (- m) 0) as [_|?]; [|lia].
  rewrite take_ge by (rewrite length_drop; lia).
  f_equal. lia.
Qed.

(** [l[-0:]] is [l[0:]], the whole list. *)
Lemma slice_suffix_zero {A : Type} (l : list A) :
  Py.slice l (Some (- 0)) None = l.
Proof.
  unfold Py.slice, Py.lower, Py.upper, Py.clamp, Py.len. simpl.
  rewrite Z.min_l by lia. simpl. rewrite Z.sub_0_r, Nat2Z.id.
  by rewrite take_ge.
Qed.

(** ** [truncate] *)

Example truncate_head_ex : truncate [1; 2; 3; 4] (Some 2) true = [1; 2].
Proof. reflexivity. Qed.

Example truncate_tail_ex : truncate [1; 2; 3; 4] (Some 2) false = [3; 4].
Proof. reflexivity. Qed.

Example truncate_short_ex : truncate [1; 2] (Some 2) false = [1; 2].
Proof. reflexivity. Qed.

(** [truncate] without a bound, or on a vector within the bound. *)
Lemma truncate_unchanged {A : Type} (vec : list A) max_length truncate_tail :
  (max_length = None \/ exists m, max_length = Some m /\ Py.len vec <= m) ->
  truncate vec max_length truncate_tail = vec.
Proof.
  intros [-> | (m & -> & Hle)]; [done|].
  unfold truncate. by rewrite (proj2 (Z.leb_le _ _) Hle).
Qed.

(** [truncate] of a longer vector, for a bound of at least 1. *)
Lemma truncate_longer {A : Type} (vec : list A) (m : Z) truncate_tail :
  1 <= m -> m < Py.len vec ->
  truncate vec (Some m) truncate_tail
  = if truncate_tail then take (Z.to_nat m) vec
    else drop (length vec - Z.to_nat m) vec.
Proof.
  intros Hm Hlt. unfold truncate.
  rewrite (proj2 (Z.leb_gt _ _) Hlt).
  destruct truncate_tail.
  - apply slice_prefix. lia.
  - by apply slice_suffix.
Qed.

(** Whatever the bound, the result of [truncate] is a run of [vec] that
    starts at its first element or ends at its last. *)
Lemma truncate_prefix_or_suffix {A : Type} (vec : list A) max_length truncate_tail :
  exists k : nat,
    truncate vec max_length truncate_tail = take k vec
    \/ truncate vec max_length truncate_tail = drop k vec.
Proof.
  destruct max_length as [m|]; [|exists 0%nat; by right].
  unfold truncate. destruct (Py.len vec <=? m); [exists 0%nat; by right|].
  destruct truncate_tail; unfold Py.slice, Py.lower, Py.upper.
  - eexists. left. by rewrite drop_0.
  - eexists. right. apply take_ge. rewrite length_drop.
    unfold Py.clamp, Py.len. destruct (- m <? 0); lia.
Qed.

(** C4, at the input where the code departs from it: with
    [max_length = 0] and [truncate_tail] false, [truncate] returns the
    whole vector [[1; 2]], not its last 0 elements, while with
    [truncate_tail] true it returns the first 0 elements. *)
Theorem truncate_tail_false_at_zero :
  truncate [1; 2] (Some 0) false = [1; 2]
  /\ truncate [1; 2] (Some 0) true = [].
Proof. split; reflexivity. Qed.

(** The length of the result for a negative bound: [- max_length]
    elements are removed. *)
Lemma truncate_negative_len {A : Type} (vec : list A) (m : Z) truncate_tail :
  m < 0 ->
  Py.len (truncate vec (Some m) truncate_tail) = Z.max (Py.len vec + m) 0.
Proof.
  intros Hm. unfold truncate.
  pose proof (len_nonneg vec) as Hlen.
  rewrite (proj2 (Z.leb_gt _ _)) by lia.
  unfold Py.slice, Py.lower, Py.upper, Py.clamp, Py.len in *.
  destruct (Z.ltb_spec m 0) as [_|?]; [|lia].
  destruct (Z.ltb_spec (- m) 0) as [?|_]; [lia|].
  destruct truncate_tail.
  - rewrite length_take, length_drop. lia.
  - rewrite length_take, length_drop. lia.
Qed.

(** The length of the result for a bound of at least 0. *)
Lemma truncate_len {A : Type} (vec : list A) (m : Z) truncate_tail :
  0 <= m ->
  Py.len (truncate vec (Some m) truncate_tail)
  = if Py.len vec <=? m then Py.len vec
    else if (m =? 0) && negb truncate_tail then Py.len vec
    else m.
Proof.
  intros Hm. destruct (Z.leb_spec (Py.len vec) m) as [Hle|Hgt].
  - by rewrite truncate_unchanged by eauto.
  - destruct (Z.eqb_spec m 0) as [->|Hne].
    + unfold truncate. rewrite (proj2 (Z.leb_gt _ _) Hgt).
      destruct truncate_tail; cbn [andb negb].
      * by rewrite slice_prefix by lia.
      * by rewrite slice_suffix_zero.
    + cbn [andb]. rewrite truncate_longer by lia. unfold Py.len in *.
      destruct truncate_tail.
      * rewrite length_take. lia.
      * rewrite length_drop. lia.
Qed.

(** C5, counterexample: with [max_length = -1] a second [truncate]
    removes one more element, so [truncate] is not idempotent there, and
    the length 2 of the first result is not at most -1; with
    [max_length = 0] and [truncate_tail] false the whole vector is
    returned, of a length that is not at most 0. *)
Lemma truncate_not_idempotent_negative :
  truncate [1; 2; 3] (Some (-1)) true = [1; 2]
  /\ truncate (truncate [1; 2; 3] (Some (-1)) true) (Some (-1)) true = [1]
  /\ ~ (truncate (truncate [1; 2; 3] (Some (-1)) true) (Some (-1)) true
        = truncate [1; 2; 3] (Some (-1)) true)
  /\ ~ (Py.len (truncate [1; 2; 3] (Some (-1)) true) <= -1)
  /\ ~ (Py.len (truncate [1; 2] (Some 0) false) <= 0).
Proof.
  repeat split; try reflexivity.
  - intros Heq. vm_compute in Heq. discriminate.
  - vm_compute. intros Hle. by apply Hle.
  - vm_compute. intros Hle. by apply Hle.
Qed.

(** C5, as amended: truncating twice is truncating once exactly when
    [max_length] is [None], or is at least 0, or is negative with a
    vector of at most [- max_length] elements; and when [max_length] is
    not [None] the result has at most [max_length] elements exactly when
    the vector already has, or [max_length] is at least 1, or
    [max_length] is 0 and [truncate_tail] is true. *)
Theorem truncate_idempotent {A : Type} (vec : list A) max_length truncate_tail :
  (truncate (truncate vec max_length truncate_tail) max_length truncate_tail
   = truncate vec max_length truncate_tail
   <-> forall m, max_length = Some m -> 0 <= m \/ Py.len vec <= - m)
  /\ (forall m, max_length = Some m ->
        (Py.len (truncate vec max_length truncate_tail) <= m
         <-> Py.len vec <= m \/ 1 <= m \/ (m = 0 /\ truncate_tail = true))).
Proof.
  destruct max_length as [m|];
    [|split; [split; [intros _ ? [=] | done] | intros ? [=]]].
  pose proof (len_nonneg vec) as Hvec.
  split.
  - split.
    + intros Hidem ? [= <-].
      destruct (Z.le_gt_cases 0 m) as [Hnn|Hneg]; [by left | right].
      apply (f_equal Py.len) in Hidem.
      rewrite (truncate_negative_len (truncate vec (Some m) truncate_tail))
        in Hidem by lia.
      rewrite truncate_negative_len in Hidem by lia. lia.
    + intros Hm. specialize (Hm m eq_refl).
      destruct (Z.le_gt_cases 0 m) as [Hnn|Hneg].
      * destruct (Z.le_gt_cases (Py.len vec) m) as [Hle|Hgt].
        { by rewrite !(truncate_unchanged vec) by eauto. }
        assert (m = 0 \/ 1 <= m) as [-> | Hpos] by lia.
        -- destruct truncate_tail.
           ++ apply truncate_unchanged. right. exists 0. split; [done|].
              rewrite truncate_len by lia.
              rewrite (proj2 (Z.leb_gt _ _) Hgt). cbn. lia.
           ++ unfold truncate at 2 3. rewrite (proj2 (Z.leb_gt _ _) Hgt).
              rewrite slice_suffix_zero. unfold truncate.
              rewrite (proj2 (Z.leb_gt _ _) Hgt). apply slice_suffix_zero.
        -- apply truncate_unchanged. right. exists m. split; [done|].
           rewrite truncate_len by lia.
           rewrite (proj2 (Z.leb_gt _ _) Hgt).
           rewrite (proj2 (Z.eqb_neq m 0)) by lia. cbn [andb]. lia.
      * destruct Hm as [?|Hshort]; [lia|].
        assert (truncate vec (Some m) truncate_tail = []) as ->.
        { apply length_zero_iff_nil.
          pose proof (truncate_negative_len vec m truncate_tail Hneg) as Hlen.
          unfold Py.len in *. lia. }
        apply length_zero_iff_nil.
        pose proof (truncate_negative_len (@nil A) m truncate_tail Hneg) as Hlen.
        unfold Py.len in Hlen. change (length (@nil A)) with 0%nat in Hlen. lia.
  - intros ? [= <-].
    destruct (Z.le_gt_cases 0 m) as [Hnn|Hneg].
    + rewrite truncate_len by lia.
      destruct (Z.leb_spec (Py.len vec) m) as [Hle|Hgt]; [tauto|].
      destruct (Z.eqb_spec m 0) as [->|Hne].
      * destruct truncate_tail; cbn [andb negb].
        -- split; [intros _; right; right; done | lia].
        -- split; [lia | intros [?|[?|[_ ?]]]; [lia | lia | done]].
      * cbn [andb]. split; [intros _; right; left; lia | lia].
    + pose proof (len_nonneg (truncate vec (Some m) truncate_tail)) as Hres.
      split; [lia | intros [?|[?|[? _]]]; lia].
Qed.

Lemma truncate_idempotent_witness :
  truncate (truncate [1; 2; 3] (Some 0) true) (Some 0) true
  = truncate [1; 2; 3] (Some 0) true
  /\ Py.len (truncate [1; 2; 3] (Some 0) true) <= 0.
Proof.
  split.
  - apply (proj1 (truncate_idempotent [1; 2; 3] (Some 0) true)).
    intros m [= <-]. left. lia.
  - apply (proj2 (truncate_idempotent [1; 2; 3] (Some 0) true) 0 eq_refl).
    right. right. split; reflexivity.
Defined.

(** ** [padded_tensor] *)

Example padded_right_ex :
  padded_tensor [[1; 2; 3]; []; [4]] 0 true None
  = Ok [[1; 2; 3]; [0; 0; 0]; [4; 0; 0]].
Proof. reflexivity. Qed.

Example padded_left_ex :
  padded_tensor [[1; 2; 3]; []; [4]] 0 false (Some 4)
  = Ok [[0; 1; 2; 3]; [0; 0; 0; 0]; [0; 0; 0; 4]].
Proof. reflexivity. Qed.

Example padded_empty_rows_ex : padded_tensor [[]; []] 7 true None = Ok [[7]; [7]].
Proof. reflexivity. Qed.

Section PaddedTensor.

Variables (right_padded : bool) (t pad_idx : Z).
Hypothesis t_pos : 1 <= t.

(** The slice assignment of the loop on a row that is still blank, for an
    item that is not empty and not longer than the row. *)
Lemma slice_assign_fits (item : list Z) :
  Py.len item <> 0 -> Py.len item <= t ->
  (if right_padded
   then Torch.slice_assign (replicate (Z.to_nat t) pad_idx)
          None (Some (Py.len item)) item
   else Torch.slice_assign (replicate (Z.to_nat t) pad_idx)
          (Some (t - Py.len item)) None item)
  = Ok (padded_row right_padded t pad_idx item).
Proof using t_pos.
  unfold padded_row, Torch.slice_assign, Py.len.
  intros Hne Hfit. rewrite !length_replicate.
  destruct right_padded; unfold Py.lower, Py.upper, Py.clamp.
  - destruct (Z.ltb_spec (Z.of_nat (length item)) 0) as [?|_]; [lia|].
    rewrite Z.min_l by lia. rewrite Z.sub_0_r, Nat2Z.id.
    rewrite decide_True by done.
    change (Z.to_nat 0) with 0%nat. simpl.
    by rewrite drop_replicate.
  - destruct (Z.ltb_spec (t - Z.of_nat (length item)) 0) as [?|_]; [lia|].
    rewrite Z2Nat.id by lia. rewrite Z.min_l by lia.
    replace (Z.to_nat (t - (t - Z.of_nat (length item)))) with (length item)
      by lia.
    rewrite decide_True by done.
    rewrite take_replicate, drop_replicate.
    replace (Z.to_nat (t - Z.of_nat (length item)) `min` Z.to_nat t)%nat
      with (Z.to_nat t - length item)%nat by lia.
    replace (Z.to_nat t - (Z.to_nat (t - Z.of_nat (length item)) + length item))%nat
      with 0%nat by lia.
    simpl. by rewrite app_nil_r.
Qed.

(** The same assignment for an item longer than the row: the slot has at
    most [t] places, the item more than [t] and more than one, so the
    shapes do not match. *)
Lemma slice_assign_too_long (row item : list Z) :
  length row = Z.to_nat t -> t < Py.len item ->
  (if right_padded
   then Torch.slice_assign row None (Some (Py.len item)) item
   else Torch.slice_assign row (Some (t - Py.len item)) None item)
  = Raise RuntimeError.
Proof using t_pos.
  unfold Torch.slice_assign, Py.len.
  intros Hrow Hlong. rewrite Hrow, Z2Nat.id by lia.
  assert (2 <= length item)%nat as Hlen by lia.
  assert (forall size : nat,
            (size <= Z.to_nat t)%nat ->
            forall before after : list Z,
            (if decide (length item = size)
             then Ok (before ++ item ++ after)
             else match item with
                  | [x] => Ok (before ++ replicate size x ++ after)
                  | _ => Raise RuntimeError
                  end) = Raise RuntimeError) as Hmismatch.
  { intros size Hsize before after.
    rewrite decide_False by lia.
    destruct item as [|x [|y item']]; simpl in Hlen; [lia | lia | done]. }
  destruct right_padded; apply Hmismatch;
    unfold Py.lower, Py.upper, Py.clamp.
  - destruct (Z.ltb_spec (Z.of_nat (length item)) 0); lia.
  - destruct (Z.ltb_spec (t - Z.of_nat (length item)) 0); lia.
Qed.

(** The loop over the items from position [k] on, when the rows from [k]
    on are still blank: it fills one row per item, or stops at the first
    item that holds a token outside [torch.long] or is longer than a
    row. *)
Lemma fill_rows_spec (rest : list (list Z)) :
  forall (k : nat) (output : list (list Z)),
  (forall j, (k <= j < k + length rest)%nat ->
             output !! j = Some (replicate (Z.to_nat t) pad_idx)) ->
  fill_rows right_padded t
    (zip (seq k (length rest)) (zip rest (map Py.len rest))) output
  = if decide (Forall (fun item => Py.len item <= t /\ Forall Torch.int64 item)
                      rest)
    then Ok (take k output ++ map (padded_row right_padded t pad_idx) rest
             ++ drop (k + length rest) output)
    else Raise RuntimeError.
Proof using t_pos.
  induction rest as [|item rest IH]; intros k output Hblank.
  - rewrite decide_True by constructor. simpl.
    by rewrite Nat.add_0_r, take_drop.
  - assert (output !! k = Some (replicate (Z.to_nat t) pad_idx)) as Hk
      by (apply Hblank; simpl; lia).
    cbn [length seq map zip zip_with fill_rows].
    destruct (Z.eqb_spec (Py.len item) 0) as [Hz|Hnz].
    + assert (item = []) as -> by (destruct item; [done | unfold Py.len in Hz; simpl in Hz; lia]).
      rewrite IH by (intros j Hj; apply Hblank; simpl; lia).
      destruct (decide (Forall (fun item => Py.len item <= t /\ Forall Torch.int64 item)
                          rest)) as [Hall|Hnall].
      * rewrite decide_True
          by (constructor; [split; [unfold Py.len; simpl; lia | constructor] | done]).
        rewrite (take_S_r _ _ _ Hk). rewrite <- app_assoc. simpl.
        unfold padded_row at 2. simpl. rewrite Nat.sub_0_r.
        replace (k + S (length rest))%nat with (S k + length rest)%nat by lia.
        destruct right_padded; simpl; by rewrite ?app_nil_r.
      * rewrite decide_False; [done|].
        intros Hall. apply Forall_cons in Hall. tauto.
    + unfold Torch.tensor.
      destruct (decide (Forall Torch.int64 item)) as [Hrange|Hrange]; cbn [bind].
      2:{ rewrite decide_False; [done|].
          intros Hall. apply Forall_cons in Hall. tauto. }
      destruct (Z.le_gt_cases (Py.len item) t) as [Hfit|Hlong].
      * unfold Torch.setitem. rewrite Hk.
        pose proof (slice_assign_fits item Hnz Hfit) as Hassign.
        assert (k < length output)%nat as Hlt by (by eapply lookup_lt_Some).
        assert ((try! output' :=
                   (if right_padded
                    then try! row' :=
                           Torch.slice_assign (replicate (Z.to_nat t) pad_idx)
                             None (Some (Py.len item)) item in
                         Ok (<[k:=row']> output)
                    else try! row' :=
                           Torch.slice_assign (replicate (Z.to_nat t) pad_idx)
                             (Some (t - Py.len item)) None item in
                         Ok (<[k:=row']> output)) in
                 fill_rows right_padded t
                   (zip (seq (S k) (length rest)) (zip rest (map Py.len rest)))
                   output')
                = fill_rows right_padded t
                    (zip (seq (S k) (length rest)) (zip rest (map Py.len rest)))
                    (<[k:=padded_row right_padded t pad_idx item]> output))
          as -> by (destruct right_padded; by rewrite Hassign).
        rewrite IH.
        2:{ intros j Hj. rewrite list_lookup_insert_ne by lia.
            apply Hblank. simpl. lia. }
        destruct (decide (Forall (fun item => Py.len item <= t /\ Forall Torch.int64 item)
                            rest)) as [Hall|Hnall].
        -- rewrite decide_True by (by constructor).
           rewrite (take_S_r _ _ (padded_row right_padded t pad_idx item))
             by (by apply list_lookup_insert_eq).
           rewrite take_insert_ge by lia. rewrite drop_insert_lt by lia.
           rewrite <- app_assoc. simpl.
           by replace (k + S (length rest))%nat with (S k + length rest)%nat by lia.
        -- rewrite decide_False; [done|].
           intros Hall. apply Forall_cons in Hall. tauto.
      * unfold Torch.setitem. rewrite Hk.
        pose proof (slice_assign_too_long (replicate (Z.to_nat t) pad_idx) item
                      (length_replicate _ _) Hlong) as Hassign.
        rewrite decide_False
          by (intros Hall; apply Forall_cons in Hall; lia).
        destruct right_padded; by rewrite Hassign.
Qed.

End PaddedTensor.

(** [max(lens)] on a non-empty list of lengths. *)
Lemma fold_left_max_foldr (l : list Z) (x : Z) :
  0 <= x -> fold_left Z.max l x = Z.max x (foldr Z.max 0 l).
Proof.
  revert x. induction l as [|y l IH]; intros x Hx; simpl.
  - lia.
  - rewrite IH by lia. lia.
Qed.

Lemma foldr_max_ge (l : list Z) (x : Z) :
  x ∈ l -> x <= foldr Z.max 0 l.
Proof.
  induction 1 as [x l | x y l _ IH]; simpl; lia.
Qed.

(** Without [max_len], no item is longer than the width. *)
Lemma width_None_fits (items : list (list Z)) :
  Forall (fun item => Py.len item <= width items None) items.
Proof.
  apply Forall_forall. intros item Hin. unfold width.
  assert (Py.len item ∈ map Py.len items) as Hlen
    by (apply list_elem_of_fmap; eauto).
  apply foldr_max_ge in Hlen. lia.
Qed.

(** Without [max_len], the width is the greatest item length, or 1 when
    every item is empty. *)
Lemma width_None_max (items : list (list Z)) :
  items <> [] ->
  (exists item, item ∈ items /\ width items None = Z.max (Py.len item) 1).
Proof.
  unfold width. induction items as [|item items IH]; [done|]. intros _.
  destruct items as [|item' items].
  - exists item. split; [by left|]. simpl. pose proof (len_nonneg item). lia.
  - destruct IH as (best & Hin & Hbest); [done|].
    destruct (Z.le_gt_cases (Py.len item) (foldr Z.max 0 (map Py.len (item' :: items))))
      as [Hle|Hgt].
    + exists best. split; [by right|].
      change (map Py.len (item :: item' :: items))
        with (Py.len item :: map Py.len (item' :: items)).
      cbn [foldr]. lia.
    + exists item. split; [by left|].
      change (map Py.len (item :: item' :: items))
        with (Py.len item :: map Py.len (item' :: items)).
      cbn [foldr]. lia.
Qed.

(** What [padded_tensor] does on every input. *)
Lemma padded_tensor_spec (items : list (list Z)) (pad_idx : Z)
    (right_padded : bool) (max_len : option Z) :
  padded_tensor items pad_idx right_padded max_len
  = match items, max_len with
    | [], None => Raise ValueError
    | [], Some _ => Raise IndexError
    | _ :: _, _ =>
        if decide (Torch.int64 (width items max_len)
                   /\ Torch.int64 pad_idx
                   /\ Forall (fun item => Py.len item <= width items max_len
                                          /\ Forall Torch.int64 item) items)
        then Ok (map (padded_row right_padded (width items max_len) pad_idx) items)
        else Raise RuntimeError
    end.
Proof.
  destruct items as [|item0 rest]; [by destruct max_len|].
  set (items := item0 :: rest).
  unfold padded_tensor.
  assert ((match max_len with
           | None => Py.max (map Py.len items)
           | Some m => Ok m
           end)
          = Ok (match max_len with
                | None => fold_left Z.max (map Py.len rest) (Py.len item0)
                | Some m => m
                end)) as -> by (by destruct max_len).
  cbn [bind].
  assert (Z.max (match max_len with
                 | None => fold_left Z.max (map Py.len rest) (Py.len item0)
                 | Some m => m
                 end) 1 = width items max_len) as ->.
  { unfold width. destruct max_len as [m|]; [done|].
    rewrite fold_left_max_foldr by apply len_nonneg.
    subst items. simpl. lia. }
  assert (Py.getitem items 0 = Ok item0) as -> by done.
  cbn [bind].
  set (t := width items max_len).
  assert (1 <= t) as Ht by (subst t; unfold width; lia).
  unfold Torch.full.
  destruct (decide (Torch.int64 t)) as [Hsize|Hsize];
    [|rewrite decide_False by tauto; reflexivity].
  destruct (decide (Torch.int64 pad_idx)) as [Hpad|Hpad];
    [|rewrite decide_False by tauto; reflexivity].
  cbn [bind]. unfold Py.enumerate.
  change (Py.len items) with (Z.of_nat (length items)).
  rewrite Nat2Z.id.
  rewrite length_zip_with, length_map, Nat.min_id.
  rewrite (fill_rows_spec right_padded t pad_idx Ht items 0).
  - destruct (decide (Forall (fun item => Py.len item <= t /\ Forall Torch.int64 item)
                        items)) as [Hall|Hnall].
    + rewrite decide_True by done.
      rewrite take_0. simpl app at 1.
      rewrite drop_ge by (rewrite length_replicate; lia).
      by rewrite app_nil_r.
    + by rewrite decide_False by tauto.
  - intros j Hj. apply lookup_replicate_2. lia.
Qed.

Lemma padded_row_length (right_padded : bool) (t pad_idx : Z) (item : list Z) :
  1 <= t -> Py.len item <= t ->
  Py.len (padded_row right_padded t pad_idx item) = t.
Proof.
  unfold padded_row, Py.len. intros Ht Hfit.
  destruct right_padded; rewrite length_app, length_replicate; lia.
Qed.

Lemma Forall_fits_int64 (items : list (list Z)) (t : Z) :
  Forall (fun item => Py.len item <= t /\ Forall Torch.int64 item) items
  <-> Forall (fun item => Py.len item <= t) items
      /\ Forall (Forall Torch.int64) items.
Proof.
  rewrite !Forall_forall. split.
  - intros Hall. split; intros item Hin; by apply Hall.
  - intros [Hfit Hrange] item Hin. split; [by apply Hfit | by apply Hrange].
Qed.

(** C1, counterexample: the list [[[1; 2; 3]]] is not empty, and with
    [max_len = 2] the call raises instead of returning a matrix.
    Further, a matrix of [torch.long] cannot hold every integer: a
    [pad_idx] or a token of [2 ^ 63], and a [max_len] of [2 ^ 63], make
    the call raise as well. *)
Lemma padded_tensor_max_len_too_small :
  padded_tensor [[1; 2; 3]] 0 true (Some 2) = Raise RuntimeError
  /\ padded_tensor [[1; 2; 3]] 0 false (Some 2) = Raise RuntimeError
  /\ ~ is_ok (padded_tensor [[1; 2; 3]] 0 true (Some 2))
  /\ ~ is_ok (padded_tensor [[1]] (2 ^ 63) true None)
  /\ ~ is_ok (padded_tensor [[2 ^ 63]] 0 true None)
  /\ ~ is_ok (padded_tensor [[1]] 0 true (Some (2 ^ 63))).
Proof.
  repeat split; try reflexivity;
    intros [output Hout]; vm_compute in Hout; discriminate.
Qed.

(** C1, as amended: for a non-empty list of items of which none is longer
    than [max(max_len, 1)] when [max_len] is given, with [pad_idx], every
    token and the row length [t = width items max_len] in the range of
    [torch.long], [padded_tensor] returns a matrix with one row per item,
    every row of the same length [t]; row [i] is item [i] followed by
    [pad_idx] up to length [t] when [right_padded] is true, and [pad_idx]
    up to length [t] followed by item [i] when it is false. *)
Theorem padded_tensor_rows (items : list (list Z)) (pad_idx : Z)
    (right_padded : bool) (max_len : option Z) :
  items <> [] ->
  (forall m, max_len = Some m ->
             Forall (fun item => Py.len item <= Z.max m 1) items) ->
  Torch.int64 pad_idx ->
  Forall (Forall Torch.int64) items ->
  Torch.int64 (width items max_len) ->
  exists output,
    padded_tensor items pad_idx right_padded max_len = Ok output
    /\ length output = length items
    /\ Forall (fun row => Py.len row = width items max_len) output
    /\ forall (i : nat) (item : list Z),
         items !! i = Some item ->
         output !! i
         = Some (if right_padded
                 then item ++ replicate (Z.to_nat (width items max_len)
                                         - length item)%nat pad_idx
                 else replicate (Z.to_nat (width items max_len)
                                 - length item)%nat pad_idx ++ item).
Proof.
  intros Hne Hgiven Hpad Htokens Hsize.
  assert (Forall (fun item => Py.len item <= width items max_len) items) as Hfit.
  { destruct max_len as [m|]; [by apply Hgiven | apply width_None_fits]. }
  assert (1 <= width items max_len) as Ht by (unfold width; lia).
  exists (map (padded_row right_padded (width items max_len) pad_idx) items).
  rewrite padded_tensor_spec.
  destruct items as [|item0 rest]; [done|].
  rewrite decide_True by (by rewrite Forall_fits_int64).
  split; [done|]. split; [by rewrite length_map|]. split.
  - apply Forall_fmap. eapply Forall_impl; [exact Hfit|].
    intros item Hitem. simpl. by apply padded_row_length.
  - intros i item Hi. rewrite list_lookup_fmap, Hi. done.
Qed.

Lemma padded_tensor_rows_witness :
  exists output,
    padded_tensor [[1; 2; 3]; []; [4]] 0 false (Some 4) = Ok output
    /\ length output = length [[1; 2; 3]; []; [4]]
    /\ Forall (fun row => Py.len row = width [[1; 2; 3]; []; [4]] (Some 4))
              output
    /\ forall (i : nat) (item : list Z),
         [[1; 2; 3]; []; [4]] !! i = Some item ->
         output !! i
         = Some (if false
                 then item ++ replicate
                        (Nat.sub (Z.to_nat (width [[1; 2; 3]; []; [4]] (Some 4)))
                                 (length item)) 0
                 else replicate
                        (Nat.sub (Z.to_nat (width [[1; 2; 3]; []; [4]] (Some 4)))
                                 (length item)) 0 ++ item).
Proof.
  apply (padded_tensor_rows [[1; 2; 3]; []; [4]] 0 false (Some 4)).
  - discriminate.
  - intros m [= <-]. repeat constructor; vm_compute; discriminate.
  - by vm_compute.
  - repeat constructor; by vm_compute.
  - by vm_compute.
Defined.

(** C10, counterexample: with [max_len = 0] the width is 1, so the item
    [[5]], longer than [max_len], is placed and the call returns; on the
    empty list without [max_len] the call fails in [max(lens)], before
    [items[0]] is reached; and a non-empty list whose item fits the width
    still makes the call raise when [pad_idx] is [2 ^ 63], outside
    [torch.long]. *)
Lemma padded_tensor_max_len_zero :
  padded_tensor [[5]] 0 true (Some 0) = Ok [[5]]
  /\ ~ (Py.len [5] <= 0)
  /\ padded_tensor [] 0 true None = Raise ValueError
  /\ ~ is_ok (padded_tensor [[1]] (2 ^ 63) true (Some 3)).
Proof.
  repeat split; try reflexivity.
  - vm_compute. intros Hle. by apply Hle.
  - intros [output Hout]. vm_compute in Hout. discriminate.
Qed.

(** C10, as amended: [padded_tensor] returns exactly when [items] is not
    empty, no item is longer than the width [t], which is
    [max(max_len, 1)] when [max_len] is given and [max(longest, 1)]
    otherwise, and [t], [pad_idx] and every token are in the range of
    [torch.long].  On the empty list it raises [ValueError] from
    [max(lens)] when [max_len] is [None] and [IndexError] from
    [items[0]] when it is given; when these values are in the range and
    an item is longer than [t] the row assignment raises [RuntimeError];
    and nothing is truncated: a returned matrix holds every item whole in
    its row. *)
Theorem padded_tensor_total_iff (items : list (list Z)) (pad_idx : Z)
    (right_padded : bool) (max_len : option Z) :
  (is_ok (padded_tensor items pad_idx right_padded max_len)
   <-> items <> []
       /\ Forall (fun item => Py.len item <= width items max_len) items
       /\ Torch.int64 (width items max_len)
       /\ Torch.int64 pad_idx
       /\ Forall (Forall Torch.int64) items)
  /\ (items = [] ->
      padded_tensor items pad_idx right_padded max_len
      = match max_len with
        | None => Raise ValueError
        | Some _ => Raise IndexError
        end)
  /\ (items <> [] ->
      Torch.int64 (width items max_len) ->
      Torch.int64 pad_idx ->
      Forall (Forall Torch.int64) items ->
      Exists (fun item => width items max_len < Py.len item) items ->
      padded_tensor items pad_idx right_padded max_len = Raise RuntimeError)
  /\ (forall output,
        padded_tensor items pad_idx right_padded max_len = Ok output ->
        forall (i : nat) (item : list Z),
          items !! i = Some item ->
          output !! i
          = Some (padded_row right_padded (width items max_len) pad_idx item)).
Proof.
  rewrite padded_tensor_spec.
  destruct items as [|item0 rest].
  - split; [|split; [|split]].
    + split.
      * intros [output Hout]. by destruct max_len.
      * by intros [? _].
    + done.
    + done.
    + intros output Hout. by destruct max_len.
  - set (items := item0 :: rest).
    destruct (decide (Torch.int64 (width items max_len)
                      /\ Torch.int64 pad_idx
                      /\ Forall (fun item => Py.len item <= width items max_len
                                             /\ Forall Torch.int64 item) items))
      as [(Hsize & Hpad & Hall)|Hnall].
    + apply Forall_fits_int64 in Hall as [Hfit Htokens].
      split; [|split; [|split]].
      * split; [done | intros _; by eexists].
      * done.
      * intros _ _ _ _ Hex. apply Exists_exists in Hex as (item & Hin & Hlong).
        rewrite Forall_forall in Hfit. specialize (Hfit item Hin). lia.
      * intros output [= <-] i item Hi.
        change ((padded_row right_padded (width items max_len) pad_idx <$> items)
                !! i = Some (padded_row right_padded (width items max_len)
                               pad_idx item)).
        by rewrite list_lookup_fmap, Hi.
    + split; [|split; [|split]].
      * split; [by intros [? ?]|].
        intros (_ & Hfit & Hsize & Hpad & Htokens). exfalso. apply Hnall.
        by rewrite Forall_fits_int64.
      * done.
      * done.
      * done.
Qed.

Lemma padded_tensor_total_iff_witness :
  padded_tensor [[1; 2]; [3]] 0 true (Some 1) = Raise RuntimeError.
Proof.
  apply (padded_tensor_total_iff [[1; 2]; [3]] 0 true (Some 1)).
  - discriminate.
  - by vm_compute.
  - by vm_compute.
  - repeat constructor; by vm_compute.
  - apply Exists_cons_hd. vm_compute. reflexivity.
Defined.

(** ** Generators *)

(** A loop whose body never raises yields one value per element. *)
Lemma yield_each_all_ok {A B : Type} (body : A -> result B) (f : A -> B)
    (xs : list A) (stop : option exn) :
  Forall (fun x => body x = Ok (f x)) xs ->
  yield_each body xs stop = Gen (map f xs) stop.
Proof.
  induction 1 as [|x xs Hx _ IH]; simpl; [done|].
  by rewrite Hx, IH.
Qed.

(** ** [batch_split] *)

(** The slice [l[k * b : (k + 1) * b]] is the [k]-th run of [b] elements. *)
Lemma slice_chunk {B : Type} (l : list B) (b : Z) (k : nat) :
  1 <= b ->
  Py.slice l (Some (Z.of_nat k * b)) (Some ((Z.of_nat k + 1) * b))
  = take (Z.to_nat b) (drop (k * Z.to_nat b) l).
Proof.
  intros Hb.
  assert (Z.to_nat (Z.of_nat k * b) = (k * Z.to_nat b)%nat) as Hkb
    by (rewrite Z2Nat.inj_mul by lia; by rewrite Nat2Z.id).
  replace ((Z.of_nat k + 1) * b) with (Z.of_nat k * b + b) by ring.
  assert (0 <= Z.of_nat k * b) as Hnn by (apply Z.mul_nonneg_nonneg; lia).
  revert Hkb Hnn. generalize (Z.of_nat k * b). generalize (k * Z.to_nat b)%nat.
  intros kb' kb Hkb Hnn.
  unfold Py.slice, Py.lower, Py.upper, Py.clamp, Py.len.
  destruct (Z.ltb_spec kb 0) as [?|_]; [lia|].
  destruct (Z.ltb_spec (kb + b) 0) as [?|_]; [lia|].
  destruct (Z.le_gt_cases kb (Z.of_nat (length l))) as [Hin|Hout].
  - rewrite (Z.min_l kb) by lia. rewrite Hkb.
    destruct (Z.le_gt_cases (kb + b) (Z.of_nat (length l))) as [Hfull|Hpart].
    + rewrite Z.min_l by lia. f_equal. lia.
    + rewrite Z.min_r by lia.
      rewrite !take_ge; [done | |]; rewrite length_drop; lia.
  - rewrite (Z.min_r kb) by lia. rewrite Nat2Z.id.
    rewrite !drop_ge by lia. by rewrite !take_nil.
Qed.

(** The runs of [b] elements of a list, concatenated. *)
Lemma concat_chunks {B : Type} (l : list B) (b m : nat) :
  concat (map (fun k => take b (drop (k * b) l)) (seq 0 m)) = take (m * b) l.
Proof.
  induction m as [|m IH]; [done|].
  rewrite seq_S, map_app, concat_app, IH. simpl.
  rewrite app_nil_r, take_take_drop. f_equal. lia.
Qed.

(** ** The float quotient *)

(** Rounding to nearest moves a quotient by at most one half. *)
Lemma round_half_even_bounds (n d : Z) :
  0 < d ->
  2 * n - d <= 2 * (Py.round_half_even n d * d) <= 2 * n + d.
Proof.
  intros Hd. unfold Py.round_half_even.
  pose proof (Z.div_mod n d ltac:(lia)) as Hdm.
  pose proof (Z.mod_pos_bound n d Hd) as Hr.
  destruct (Z.ltb_spec (2 * (n mod d)) d);
    [|destruct (Z.ltb_spec d (2 * (n mod d))); [|destruct (Z.even (n / d))]];
    nia.
Qed.

Lemma round_half_even_zero (d : Z) : 0 < d -> Py.round_half_even 0 d = 0.
Proof.
  intros Hd. unfold Py.round_half_even.
  rewrite Z.div_0_l, Z.mod_0_l by lia.
  destruct (Z.ltb_spec (2 * 0) d); [done | lia].
Qed.

(** The exponent found for a quotient is not above its logarithm. *)
Lemma quot_log2_lower (a b : Z) :
  0 < a -> 0 < b ->
  (0 <= Py.quot_log2 a b -> b * 2 ^ Py.quot_log2 a b <= a)
  /\ (Py.quot_log2 a b < 0 -> b <= a * 2 ^ (- Py.quot_log2 a b)).
Proof.
  intros Ha Hb. unfold Py.quot_log2.
  pose proof (Z.log2_spec a Ha) as [Hla Hla'].
  pose proof (Z.log2_spec b Hb) as [Hlb Hlb'].
  pose proof (Z.log2_nonneg a) as Hna.
  pose proof (Z.log2_nonneg b) as Hnb.
  set (la := Z.log2 a) in *. set (lb := Z.log2 b) in *.
  replace (Z.succ la) with (la + 1) in Hla' by lia.
  replace (Z.succ lb) with (lb + 1) in Hlb' by lia.
  destruct (Z.leb_spec 0 (la - lb)) as [Hd|Hd].
  - destruct (Z.leb_spec (b * 2 ^ (la - lb)) a) as [Hle|Hgt].
    + split; [done | lia].
    + assert (b * 2 ^ (la - lb) < 2 * a) as Hlt.
      { assert (2 ^ la = 2 ^ lb * 2 ^ (la - lb)) as Hpow
          by (rewrite <- Z.pow_add_r by lia; f_equal; lia).
        rewrite Z.pow_add_r in Hlb' by lia.
        assert (0 < 2 ^ (la - lb)) by (apply Z.pow_pos_nonneg; lia).
        nia. }
      split.
      * intros Hg. replace (la - lb) with (la - lb - 1 + 1) in Hlt by lia.
        rewrite Z.pow_add_r in Hlt by lia. lia.
      * intros Hg. replace (la - lb) with 0 in * by lia.
        replace (- (0 - 1)) with 1 by lia. simpl in *. lia.
  - assert (a * 2 ^ (- (la - lb)) * 2 >= b) as Hge.
    { assert (2 ^ lb = 2 ^ la * 2 ^ (- (la - lb))) as Hpow
        by (rewrite <- Z.pow_add_r by lia; f_equal; lia).
      rewrite Z.pow_add_r in Hlb' by lia.
      assert (0 < 2 ^ (- (la - lb))) by (apply Z.pow_pos_nonneg; lia).
      nia. }
    destruct (Z.leb_spec b (a * 2 ^ (- (la - lb)))) as [Hle|Hgt].
    + split; [lia | done].
    + split; [lia|]. intros _.
      replace (- (la - lb - 1)) with (- (la - lb) + 1) by lia.
      rewrite Z.pow_add_r by lia. lia.
Qed.

(** The ceiling of a rounded quotient is the ceiling of the quotient when
    the rounding step [1 / (2 * P)] is finer than [1 / b]. *)
Lemma ceil_of_rounded (a b P m : Z) :
  1 <= b -> 1 <= P -> b < 2 * P ->
  2 * (a * P) - b <= 2 * (m * b) <= 2 * (a * P) + b ->
  - ((- m) / P) = - ((- a) / b).
Proof.
  intros Hb HP Hfine Hm.
  pose proof (Z.div_mod (- a) b ltac:(lia)) as Hdm.
  pose proof (Z.mod_pos_bound (- a) b ltac:(lia)) as Hr.
  set (K := - (- a / b)) in *.
  assert ((K - 1) * b < a <= K * b) as [Hlo Hhi] by (subst K; nia).
  assert (m <= K * P) as Hup by nia.
  assert ((K - 1) * P < m) as Hdown by nia.
  f_equal. replace (- a / b) with (- K) by (subst K; lia).
  symmetry. apply (Z.div_unique (- m) P (- K) (K * P - m)); lia.
Qed.

(** The float [0 / b] is zero. *)
Lemma ceil_div_zero (b : Z) : b <> 0 -> Py.ceil_div 0 b = Ok 0.
Proof.
  intros Hb. unfold Py.ceil_div, Py.float_quot.
  destruct (Z.eqb_spec b 0) as [?|_]; [done|].
  change (Z.abs 0) with 0.
  assert (0 < Z.abs b) as Hpos by lia.
  set (e := Z.max (Py.quot_log2 0 (Z.abs b) - 52) (-1074)).
  assert ((if e <? 0 then Py.round_half_even (0 * 2 ^ (- e)) (Z.abs b)
           else Py.round_half_even 0 (Z.abs b * 2 ^ e)) = 0) as ->.
  { destruct (Z.ltb_spec e 0).
    - rewrite Z.mul_0_l. by apply round_half_even_zero.
    - apply round_half_even_zero. apply Z.mul_pos_pos; [done|].
      apply Z.pow_pos_nonneg; lia. }
  f_equal. rewrite Z.mul_0_l. change (- 0) with 0.
  assert (0 / 2 ^ (- e) = 0) as -> by (destruct (2 ^ (- e)); done).
  by destruct (0 <=? e), (xorb (0 <? 0) (b <? 0)).
Qed.

(** The same when [b] divides [a]: the rounding is then exact. *)
Lemma ceil_of_rounded_multiple (K b P m : Z) :
  1 <= b -> 1 <= P ->
  2 * (K * b * P) - b <= 2 * (m * b) <= 2 * (K * b * P) + b ->
  - ((- m) / P) = - ((- (K * b)) / b).
Proof.
  intros Hb HP Hm.
  assert (m = K * P) as ->.
  { assert (2 * ((m - K * P) * b) = 2 * (m * b) - 2 * (K * b * P)) as Heq
      by ring.
    assert (- b <= 2 * ((m - K * P) * b) <= b) as Hd by lia.
    clear Heq Hm. remember (m - K * P) as d eqn:Hdef.
    assert (d = 0) by nia. lia. }
  replace (- (K * P)) with ((- K) * P) by lia.
  replace (- (K * b)) with ((- K) * b) by lia.
  by rewrite !Z.div_mul by lia.
Qed.

(** For a length of at most [2 ^ 53] and a smaller divisor, the ceiling
    of the float quotient is the ceiling of the exact quotient. *)
Lemma ceil_div_exact_above (a b : Z) :
  1 <= b < a -> a <= 2 ^ 53 ->
  Py.ceil_div a b = Ok (- ((- a) / b)).
Proof.
  intros [Hb Hba] Ha53.
  destruct (Z.eq_dec a (2 ^ 53)) as [Htop|Hne];
    [destruct (Z.eq_dec b 1) as [->|Hb1];
       [subst a; by vm_compute
       | destruct (Z.eq_dec b 2) as [->|Hb2]; [subst a; by vm_compute|]]|].
  all: unfold Py.ceil_div.
  all: destruct (Z.eqb_spec b 0) as [?|_]; [lia|].
  all: rewrite (Z.abs_eq a), (Z.abs_eq b) by lia.
  all: destruct (Z.ltb_spec b 0) as [?|_]; [lia|].
  all: destruct (Z.ltb_spec a 0) as [?|_]; [lia|].
  all: cbn [xorb]; unfold Py.float_quot.
  all: destruct (quot_log2_lower a b ltac:(lia) ltac:(lia)) as [Hg0 Hg1].
  all: set (g := Py.quot_log2 a b) in *; clearbody g.
  - (* a = 2 ^ 53, 3 <= b *)
    assert (g <= 51) as Hg51.
    { destruct (Z.le_gt_cases g 51) as [?|Hbig]; [done|]. exfalso.
      specialize (Hg0 ltac:(lia)).
      assert (2 ^ 52 <= 2 ^ g) by (apply Z.pow_le_mono_r; lia).
      nia. }
    set (e := Z.max (g - 52) (-1074)).
    assert (-1074 <= e < 0) as He by lia.
    destruct (Z.ltb_spec e 0) as [_|?]; [|lia].
    destruct (Z.leb_spec 0 e) as [?|_]; [lia|].
    assert (1 <= 2 ^ (- e)) as HP
      by (pose proof (Z.pow_pos_nonneg 2 (- e) ltac:(lia) ltac:(lia)); lia).
    f_equal.
    destruct (Z.le_gt_cases 0 g) as [Hpos|Hneg].
    + specialize (Hg0 Hpos).
      assert (e = g - 52) as Heq by lia. clearbody e. subst e.
      assert (2 ^ 53 = 2 ^ g * 2 ^ (53 - g)) as Hpow
        by (rewrite <- Z.pow_add_r by lia; f_equal; lia).
      assert (2 * 2 ^ (- (g - 52)) = 2 ^ (53 - g)) as Htwo
        by (replace (53 - g) with (1 + - (g - 52)) by lia;
            rewrite Z.pow_add_r by lia; done).
      assert (0 < 2 ^ g) as Hgpos by (apply Z.pow_pos_nonneg; lia).
      assert (b <= 2 ^ (53 - g)) as Hle by nia.
      destruct (Z.eq_dec b (2 ^ (53 - g))) as [Hpow2|Hnot].
      * assert (a = 2 ^ g * b) as Hmul by (rewrite Hpow2; lia).
        pose proof (round_half_even_bounds (a * 2 ^ (- (g - 52))) b
                      ltac:(lia)) as Hm.
        rewrite Hmul in Hm.
        pose proof (ceil_of_rounded_multiple _ _ _ _ Hb HP Hm) as Hceil.
        rewrite <- Hmul in Hceil. exact Hceil.
      * apply ceil_of_rounded; [done | done | lia |].
        apply round_half_even_bounds. lia.
    + assert (2 ^ 53 <= 2 ^ (- e)) by (apply Z.pow_le_mono_r; lia).
      apply ceil_of_rounded; [done | done | lia |].
      apply round_half_even_bounds. lia.
  - (* a < 2 ^ 53 *)
    assert (g <= 52) as Hg52.
    { destruct (Z.le_gt_cases g 52) as [?|Hbig]; [done|]. exfalso.
      specialize (Hg0 ltac:(lia)).
      assert (2 ^ 53 <= 2 ^ g) by (apply Z.pow_le_mono_r; lia).
      nia. }
    set (e := Z.max (g - 52) (-1074)).
    assert (-1074 <= e <= 0) as He by lia.
    assert (b < 2 * 2 ^ (- e)) as Hfine.
    { destruct (Z.le_gt_cases 0 g) as [Hpos|Hneg].
      - assert (e = g - 52) as Heq by lia. clearbody e. subst e.
        replace (2 * 2 ^ (- (g - 52))) with (2 ^ (53 - g))
          by (replace (53 - g) with (1 + - (g - 52)) by lia;
              rewrite Z.pow_add_r by lia; done).
        specialize (Hg0 Hpos).
        assert (2 ^ 53 = 2 ^ g * 2 ^ (53 - g)) as Hpow
          by (rewrite <- Z.pow_add_r by lia; f_equal; lia).
        assert (0 < 2 ^ g) by (apply Z.pow_pos_nonneg; lia).
        nia.
      - assert (2 ^ 53 <= 2 ^ (- e)) by (apply Z.pow_le_mono_r; lia). lia. }
    assert (1 <= 2 ^ (- e)) as HP
      by (pose proof (Z.pow_pos_nonneg 2 (- e) ltac:(lia) ltac:(lia)); lia).
    f_equal.
    destruct (Z.ltb_spec e 0) as [Hneg|Hzero].
    + destruct (Z.leb_spec 0 e) as [?|_]; [lia|].
      apply ceil_of_rounded; [done|done|done|].
      apply round_half_even_bounds. lia.
    + assert (e = 0) as He0 by lia. rewrite He0 in *.
      destruct (Z.leb_spec 0 0) as [_|?]; [|lia].
      change (2 ^ 0) with 1 in *. rewrite !Z.mul_1_r.
      rewrite <- (Z.div_1_r (Py.round_half_even a b)) at 1.
      replace (Py.round_half_even a b / 1)
        with (- (- Py.round_half_even a b / 1)) by (rewrite !Z.div_1_r; lia).
      apply ceil_of_rounded; [done|lia|simpl in Hfine; lia|].
      rewrite Z.mul_1_r. apply round_half_even_bounds. lia.
Qed.

(** A divisor other than 0 gives a result. *)
Lemma ceil_div_total (a b : Z) : b <> 0 -> exists m, Py.ceil_div a b = Ok m.
Proof.
  intros Hb. unfold Py.ceil_div.
  destruct (Z.eqb_spec b 0) as [?|_]; [done|].
  destruct (Py.float_quot (Z.abs a) (Z.abs b)) as [m e]. by eexists.
Qed.

(** The mantissa of a float quotient is not negative. *)
Lemma float_quot_nonneg (a b : Z) :
  0 <= a -> 0 < b -> 0 <= fst (Py.float_quot a b).
Proof.
  intros Ha Hb. unfold Py.float_quot. cbn [fst].
  set (e := Z.max (Py.quot_log2 a b - 52) (-1074)).
  destruct (Z.ltb_spec e 0) as [Hneg|Hpos].
  - pose proof (round_half_even_bounds (a * 2 ^ (- e)) b Hb) as Hm.
    assert (0 < 2 ^ (- e)) by (apply Z.pow_pos_nonneg; lia). nia.
  - assert (0 < b * 2 ^ e) as Hd
      by (apply Z.mul_pos_pos; [done | apply Z.pow_pos_nonneg; lia]).
    pose proof (round_half_even_bounds a (b * 2 ^ e) Hd) as Hm. nia.
Qed.

(** A length divided by a negative number has a ceiling of at most 0. *)
Lemma ceil_div_nonpositive (a b : Z) :
  0 <= a -> b < 0 -> exists m, Py.ceil_div a b = Ok m /\ m <= 0.
Proof.
  intros Ha Hb. unfold Py.ceil_div.
  destruct (Z.eqb_spec b 0) as [?|_]; [lia|].
  pose proof (float_quot_nonneg (Z.abs a) (Z.abs b) ltac:(lia) ltac:(lia)) as Hm.
  destruct (Py.float_quot (Z.abs a) (Z.abs b)) as [m e]. cbn [fst] in Hm.
  destruct (Z.ltb_spec a 0) as [?|_]; [lia|].
  destruct (Z.ltb_spec b 0) as [_|?]; [|lia].
  cbn [xorb]. eexists. split; [done|].
  destruct (Z.leb_spec 0 e) as [Hpos|Hneg].
  - assert (0 < 2 ^ e) by (apply Z.pow_pos_nonneg; lia). nia.
  - assert (0 < 2 ^ (- e)) by (apply Z.pow_pos_nonneg; lia).
    pose proof (Z.div_pos m (2 ^ (- e)) Hm ltac:(lia)). lia.
Qed.

(** A quotient above [2 ^ -1075] does not become 0: its ceiling is at
    least 1. *)
Lemma ceil_div_positive (a b : Z) :
  1 <= a -> 1 <= b -> b < a * 2 ^ 1075 ->
  exists m, Py.ceil_div a b = Ok m /\ 1 <= m.
Proof.
  intros Ha Hb Hsmall. unfold Py.ceil_div.
  destruct (Z.eqb_spec b 0) as [?|_]; [lia|].
  rewrite (Z.abs_eq a), (Z.abs_eq b) by lia.
  destruct (Z.ltb_spec a 0) as [?|_]; [lia|].
  destruct (Z.ltb_spec b 0) as [?|_]; [lia|].
  cbn [xorb]. unfold Py.float_quot.
  destruct (quot_log2_lower a b ltac:(lia) ltac:(lia)) as [Hg0 Hg1].
  set (g := Py.quot_log2 a b) in *.
  set (e := Z.max (g - 52) (-1074)).
  eexists. split; [done|].
  destruct (Z.ltb_spec e 0) as [Hneg|Hpos].
  - destruct (Z.leb_spec 0 e) as [?|_]; [lia|].
    assert (0 < 2 ^ (- e)) as HP by (apply Z.pow_pos_nonneg; lia).
    pose proof (round_half_even_bounds (a * 2 ^ (- e)) b ltac:(lia)) as Hm.
    assert (b < 2 * (a * 2 ^ (- e))) as Hbig.
    { destruct (Z.le_gt_cases (-1074) (g - 52)) as [Hnorm|Hsub].
      - assert (e = g - 52) as He by lia. clearbody e. subst e.
        destruct (Z.le_gt_cases 0 g) as [Hgpos|Hgneg].
        + specialize (Hg0 Hgpos).
          assert (0 < 2 ^ g) by (apply Z.pow_pos_nonneg; lia). nia.
        + specialize (Hg1 Hgneg).
          assert (2 ^ (- g) <= 2 ^ (- (g - 52)))
            by (apply Z.pow_le_mono_r; lia).
          nia.
      - assert (e = -1074) as He by lia. clearbody e. subst e.
        change (- -1074) with 1074.
        replace (2 ^ 1075) with (2 * 2 ^ 1074) in Hsmall
          by (replace 1075 with (1 + 1074) by lia;
              rewrite Z.pow_add_r by lia; done).
        lia. }
    assert (1 <= Py.round_half_even (a * 2 ^ (- e)) b) as Hone by nia.
    pose proof (Z.div_lt_upper_bound
                  (- Py.round_half_even (a * 2 ^ (- e)) b) (2 ^ (- e)) 0
                  HP ltac:(lia)).
    lia.
  - destruct (Z.leb_spec 0 e) as [_|?]; [|lia].
    assert (0 < 2 ^ e) as HP by (apply Z.pow_pos_nonneg; lia).
    assert (0 < b * 2 ^ e) as Hd by (apply Z.mul_pos_pos; lia).
    pose proof (round_half_even_bounds a (b * 2 ^ e) Hd) as Hm.
    assert (b * 2 ^ e < 2 * a) as Hbig.
    { assert (e = g - 52) as He by lia. clearbody e. subst e.
      specialize (Hg0 ltac:(lia)).
      assert (2 ^ g = 2 ^ (g - 52) * 2 ^ 52) as Hpow
        by (rewrite <- Z.pow_add_r by lia; f_equal; lia).
      assert (1 <= 2 ^ 52) by (pose proof (Z.pow_pos_nonneg 2 52); lia).
      nia. }
    assert (1 <= Py.round_half_even a (b * 2 ^ e)) as Hone by nia.
    nia.
Qed.

(** A quotient of at most 1 has a ceiling of at most 1. *)
Lemma ceil_div_at_most_one (a b : Z) :
  1 <= a <= b -> exists m, Py.ceil_div a b = Ok m /\ m <= 1.
Proof.
  intros [Ha Hab]. unfold Py.ceil_div.
  destruct (Z.eqb_spec b 0) as [?|_]; [lia|].
  rewrite (Z.abs_eq a), (Z.abs_eq b) by lia.
  destruct (Z.ltb_spec a 0) as [?|_]; [lia|].
  destruct (Z.ltb_spec b 0) as [?|_]; [lia|].
  cbn [xorb]. unfold Py.float_quot.
  destruct (quot_log2_lower a b ltac:(lia) ltac:(lia)) as [Hg0 _].
  set (g := Py.quot_log2 a b) in *.
  set (e := Z.max (g - 52) (-1074)).
  eexists. split; [done|].
  destruct (Z.ltb_spec e 0) as [Hneg|Hpos].
  - destruct (Z.leb_spec 0 e) as [?|_]; [lia|].
    assert (0 < 2 ^ (- e)) as HP by (apply Z.pow_pos_nonneg; lia).
    pose proof (round_half_even_bounds (a * 2 ^ (- e)) b ltac:(lia)) as Hm.
    assert (Py.round_half_even (a * 2 ^ (- e)) b <= 2 ^ (- e)) as Hle by nia.
    pose proof (Z.div_le_lower_bound
                  (- Py.round_half_even (a * 2 ^ (- e)) b) (2 ^ (- e)) (-1)
                  HP ltac:(lia)).
    lia.
  - exfalso. specialize (Hg0 ltac:(lia)).
    assert (2 ^ 52 <= 2 ^ g) by (apply Z.pow_le_mono_r; lia).
    nia.
Qed.

(** For a length of at most [2 ^ 53] and a divisor of at least 1 that
    leaves the quotient above [2 ^ -1075], the ceiling of the float
    quotient is the ceiling of the exact quotient. *)
Lemma ceil_div_exact (a b : Z) :
  0 <= a <= 2 ^ 53 -> 1 <= b -> (1 <= a -> b < a * 2 ^ 1075) ->
  Py.ceil_div a b = Ok (- ((- a) / b)).
Proof.
  intros [Ha Ha53] Hb Hsmall.
  destruct (Z.eq_dec a 0) as [->|Hnz].
  { rewrite ceil_div_zero by lia. change (- 0) with 0.
    by rewrite Z.div_0_l by lia. }
  destruct (Z.le_gt_cases a b) as [Hab|Hba].
  - destruct (ceil_div_positive a b) as (m & Hm & Hm1); [lia | done | lia |].
    destruct (ceil_div_at_most_one a b) as (m' & Hm' & Hm'1); [lia|].
    rewrite Hm in Hm'. injection Hm' as <-. rewrite Hm. f_equal.
    assert (- a / b = -1) as ->
      by (symmetry; apply (Z.div_unique (- a) b (-1) (b - a)); lia).
    lia.
  - apply ceil_div_exact_above; lia.
Qed.

(** [ceil(n / b)] for such a length [n] and divisor [b]: the least [m]
    with [n <= m * b]. *)
Lemma ceil_div_spec (n b : Z) :
  0 <= n <= 2 ^ 53 -> 1 <= b -> (1 <= n -> b < n * 2 ^ 1075) ->
  exists m, Py.ceil_div n b = Ok m /\ 0 <= m /\ (m - 1) * b < n <= m * b.
Proof.
  intros Hn Hb Hsmall. rewrite ceil_div_exact by done.
  exists (- (- n / b)). split; [done|].
  pose proof (Z.div_mod (- n) b ltac:(lia)) as Hdm.
  pose proof (Z.mod_pos_bound (- n) b ltac:(lia)) as Hmod.
  nia.
Qed.

(** Reading a list at valid indices. *)
Lemma list_comp_getitem {B : Type} (d : B) (dataset : list B) (idxs : list Z) :
  Forall (fun idx => 0 <= idx < Py.len dataset) idxs ->
  Py.list_comp (fun idx => Py.getitem dataset idx) idxs
  = Ok (map (fun idx => nth (Z.to_nat idx) dataset d) idxs).
Proof.
  induction 1 as [|idx idxs Hidx _ IH]; simpl; [done|].
  rewrite IH. unfold Py.getitem, Py.len in *.
  destruct (Z.ltb_spec idx 0) as [?|_]; [lia|].
  destruct (Z.ltb_spec idx 0) as [?|_]; [lia|].
  destruct (dataset !! Z.to_nat idx) as [x|] eqn:Hx.
  - simpl. do 2 f_equal. symmetry. by apply nth_lookup_Some with (d := d) in Hx.
  - apply lookup_ge_None in Hx. lia.
Qed.

(** Reading a list at every index, in order, gives the list back. *)
Lemma map_nth_range {B : Type} (d : B) (dataset : list B) :
  map (fun idx => nth (Z.to_nat idx) dataset d) (Py.range (Py.len dataset))
  = dataset.
Proof.
  unfold Py.range, Py.range2, Py.len.
  rewrite Z.sub_0_r, Nat2Z.id, map_map.
  apply list_eq. intros i. rewrite list_lookup_fmap.
  destruct (dataset !! i) as [x|] eqn:Hx.
  - rewrite (lookup_seq_lt _ _ i) by (by eapply lookup_lt_Some).
    cbn [fmap option_fmap option_map]. rewrite Z.add_0_l, Nat2Z.id. simpl. f_equal.
    by apply nth_lookup_Some with (d := d) in Hx.
  - rewrite lookup_seq_ge; [done|]. by apply lookup_ge_None.
Qed.

Lemma range_valid (n : Z) : Forall (fun idx => 0 <= idx < n) (Py.range n).
Proof.
  unfold Py.range, Py.range2. apply Forall_forall. intros idx Hin.
  apply list_elem_of_fmap in Hin as (i & -> & Hi).
  apply elem_of_seq in Hi. lia.
Qed.

Example batch_split_ex :
  batch_split (fun l => l) [10; 20; 30; 40; 50] 2 false
  = Gen [[10; 20]; [30; 40]; [50]] None.
Proof. reflexivity. Qed.

Example batch_split_shuffled_ex :
  batch_split (@rev Z) [10; 20; 30; 40; 50] 2 true
  = Gen [[50; 40]; [30; 20]; [10]] None.
Proof. reflexivity. Qed.

Example batch_split_zero_ex :
  batch_split (fun l => l) [10; 20] 0 false = Gen [] (Some ZeroDivisionError).
Proof. reflexivity. Qed.

Section BatchSplitProps.

Context {A : Type}.
Variable random_shuffle : list Z -> list Z.
Hypothesis random_shuffle_perm : forall l, Permutation (random_shuffle l) l.

(** The index list of [batch_split], shuffled or not, holds valid
    indices. *)
Lemma idx_list_valid (n : Z) (shuffle : bool) :
  Forall (fun idx => 0 <= idx < n)
         (if shuffle then random_shuffle (Py.range n) else Py.range n).
Proof using random_shuffle_perm.
  destruct shuffle; [|apply range_valid].
  rewrite random_shuffle_perm. apply range_valid.
Qed.

(** The batches of [batch_split] are the runs of [batch_size] elements of
    the dataset read in the order of the index list. *)
Lemma batch_split_chunks (d : A) (dataset : list A) (batch_size m : Z)
    (shuffle : bool) :
  1 <= batch_size ->
  Py.ceil_div (Py.len dataset) batch_size = Ok m ->
  batch_split random_shuffle dataset batch_size shuffle
  = Gen (map (fun k =>
                take (Z.to_nat batch_size)
                  (drop (k * Z.to_nat batch_size)
                     (map (fun idx => nth (Z.to_nat idx) dataset d)
                        (if shuffle
                         then random_shuffle (Py.range (Py.len dataset))
                         else Py.range (Py.len dataset)))))
             (seq 0 (Z.to_nat m)))
        None.
Proof using random_shuffle_perm.
  intros Hb Hceil. unfold batch_split. rewrite Hceil.
  pose proof (idx_list_valid (Py.len dataset) shuffle) as Hvalid.
  set (idx_list := if shuffle then random_shuffle (Py.range (Py.len dataset))
                   else Py.range (Py.len dataset)) in *.
  rewrite (yield_each_all_ok _
             (fun start_idx =>
                map (fun idx => nth (Z.to_nat idx) dataset d)
                  (take (Z.to_nat batch_size)
                     (drop (Z.to_nat start_idx * Z.to_nat batch_size) idx_list)))).
  - f_equal. unfold Py.range, Py.range2. rewrite Z.sub_0_r, map_map.
    apply map_ext. intros k. rewrite Z.add_0_l, Nat2Z.id.
    by rewrite fmap_take, fmap_drop.
  - apply Forall_forall. intros start_idx Hin.
    unfold Py.range, Py.range2 in Hin.
    apply list_elem_of_fmap in Hin as (k & -> & _).
    rewrite Z.add_0_l, Nat2Z.id.
    rewrite slice_chunk by done.
    apply list_comp_getitem. by apply Forall_take, Forall_drop.
Qed.

(** On a non-empty dataset there is a first batch, for a batch size of
    at least 1 that leaves the float [len(dataset) / batch_size] above 0. *)
Lemma batch_split_first (dataset : list A) (batch_size : Z) (shuffle : bool) :
  1 <= batch_size -> dataset <> [] ->
  batch_size < Py.len dataset * 2 ^ 1075 ->
  exists batch batches,
    batch_split random_shuffle dataset batch_size shuffle
    = Gen (batch :: batches) None.
Proof using random_shuffle_perm.
  intros Hb Hne Hsmall. destruct dataset as [|d rest]; [done|].
  destruct (ceil_div_positive (Py.len (d :: rest)) batch_size) as (m & Hceil & Hm1);
    [unfold Py.len; simpl; lia | done | done |].
  rewrite (batch_split_chunks d (d :: rest) batch_size m shuffle Hb Hceil).
  destruct (Z.to_nat m) as [|m'] eqn:Hnat; [lia|].
  simpl. by eexists _, _.
Qed.

(** C2, as amended: for every dataset of at most [2 ^ 53] elements and
    every [batch_size] of at least 1 that, for a dataset that is not
    empty, is below [len(dataset) * 2 ^ 1075] (so that the float
    [len(dataset) / batch_size] is not rounded to 0), [batch_split]
    yields exactly [ceil(len(dataset) / batch_size)] batches and then
    stops; every batch has between 1 and [batch_size] elements, every
    batch but the last exactly [batch_size], and the last the elements
    that remain; without shuffling the batches concatenated are the
    dataset in its order, and with shuffling they are a permutation of
    it. *)
Theorem batch_split_batches (dataset : list A) (batch_size : Z)
    (shuffle : bool) :
  Py.len dataset <= 2 ^ 53 ->
  1 <= batch_size ->
  (dataset <> [] -> batch_size < Py.len dataset * 2 ^ 1075) ->
  exists batches,
    batch_split random_shuffle dataset batch_size shuffle = Gen batches None
    /\ Py.ceil_div (Py.len dataset) batch_size = Ok (Py.len batches)
    /\ (forall (i : nat) (batch : list A),
          batches !! i = Some batch ->
          1 <= Py.len batch <= batch_size
          /\ ((S i < length batches)%nat -> Py.len batch = batch_size)
          /\ (S i = length batches ->
              Py.len batch = Py.len dataset - Z.of_nat i * batch_size))
    /\ (if shuffle then Permutation (concat batches) dataset
        else concat batches = dataset).
Proof using random_shuffle_perm.
  intros Hlen53 Hb Hsmall.
  destruct (ceil_div_spec (Py.len dataset) batch_size
              (conj (len_nonneg _) Hlen53) Hb)
    as (m & Hceil & Hm & Hlo & Hhi).
  { intros Hlen. apply Hsmall. intros ->. unfold Py.len in Hlen.
    simpl in Hlen. lia. }
  destruct dataset as [|d rest].
  - assert (m = 0) as -> by (unfold Py.len in *; simpl in *; nia).
    exists []. unfold batch_split. rewrite Hceil. simpl.
    repeat split; try done. by destruct shuffle.
  - set (dataset := d :: rest) in *.
    rewrite (batch_split_chunks d dataset batch_size m shuffle Hb Hceil).
    set (idx_list := if shuffle then random_shuffle (Py.range (Py.len dataset))
                     else Py.range (Py.len dataset)).
    set (arranged := map (fun idx => nth (Z.to_nat idx) dataset d) idx_list).
    assert (if shuffle then Permutation arranged dataset else arranged = dataset)
      as Harr.
    { subst arranged idx_list. destruct shuffle.
      - rewrite random_shuffle_perm. by rewrite map_nth_range.
      - apply map_nth_range. }
    assert (length arranged = length dataset) as Hlen.
    { destruct shuffle; [by apply Permutation_length | by rewrite Harr]. }
    eexists. split; [done|]. split; [|split].
    + rewrite Hceil. f_equal. unfold Py.len.
      rewrite length_map, length_seq. lia.
    + intros i batch Hi. rewrite length_map, length_seq.
      rewrite list_lookup_fmap in Hi.
      destruct (seq 0 (Z.to_nat m) !! i) as [k|] eqn:Hk; [|done].
      apply lookup_seq in Hk as [-> Hlt]. simpl in Hi.
      injection Hi as <-.
      unfold Py.len in *. rewrite length_take, length_drop, Hlen.
      assert (exists ib mb : Z,
                Z.of_nat (i * Z.to_nat batch_size) = ib
                /\ ib <= mb
                /\ ((S i < Z.to_nat m)%nat -> ib + batch_size <= mb)
                /\ (S i = Z.to_nat m -> ib = mb)
                /\ mb < Z.of_nat (length dataset) <= mb + batch_size)
        as (ib & mb & Hib & Hle & Hfull & Hlast & Hbounds).
      { exists (Z.of_nat i * batch_size), ((m - 1) * batch_size).
        split; [rewrite Nat2Z.inj_mul; lia|].
        split; [nia|]. split; [intros ?; nia|]. split; [intros ?; nia|].
        split; [done|]. lia. }
      replace (Z.of_nat i * batch_size) with ib by (rewrite <- Hib; lia).
      revert Hib. generalize (i * Z.to_nat batch_size)%nat. intros ibn Hib.
      lia.
    + rewrite concat_chunks.
      rewrite take_ge; [done|].
      rewrite Hlen. unfold Py.len in *.
      assert (Z.of_nat (Z.to_nat m * Z.to_nat batch_size) = m * batch_size)
        by (rewrite Nat2Z.inj_mul; lia).
      lia.
Qed.

End BatchSplitProps.

(** C2, counterexample: a dataset of 3 elements split with
    [batch_size = 2] gives the 2 batches that [ceil(3 / 2)] counts, and
    the last one has 1 element, not 2.  Further, the count of batches is
    the ceiling of a float: for [batch_size = 2 ^ 1080] the float
    [2 / 2 ^ 1080] is 0 and no batch is yielded, and a dataset of
    [2 ^ 53 + 1] elements with [batch_size = 2 ^ 53] gets 1 batch where
    the exact quotient asks for 2. *)
Lemma batch_split_last_batch_short :
  batch_split (fun l => l) [10; 20; 30] 2 false = Gen [[10; 20]; [30]] None
  /\ ~ Forall (fun batch => Py.len batch = 2) [[10; 20]; [30]]
  /\ batch_split (fun l => l) [10; 20] (2 ^ 1080) false = Gen [] None
  /\ Py.ceil_div (2 ^ 53 + 1) (2 ^ 53) = Ok 1.
Proof.
  split; [reflexivity|]. split.
  - intros Hall. apply Forall_cons in Hall as [_ Hall].
    apply Forall_cons in Hall as [Hlast _]. vm_compute in Hlast. discriminate.
  - split; vm_compute; reflexivity.
Qed.

Lemma batch_split_batches_witness :
  exists batches,
    batch_split (@rev Z) [10; 20; 30] 2 true = Gen batches None
    /\ Py.ceil_div (Py.len [10; 20; 30]) 2 = Ok (Py.len batches)
    /\ (forall (i : nat) (batch : list Z),
          batches !! i = Some batch ->
          1 <= Py.len batch <= 2
          /\ ((S i < length batches)%nat -> Py.len batch = 2)
          /\ (S i = length batches ->
              Py.len batch = Py.len [10; 20; 30] - Z.of_nat i * 2))
    /\ Permutation (concat batches) [10; 20; 30].
Proof.
  apply (batch_split_batches (@rev Z) (fun l => Permutation_sym (Permutation_rev l))
           [10; 20; 30] 2 true).
  - vm_compute. discriminate.
  - lia.
  - intros _. vm_compute. reflexivity.
Defined.

(** ** [BaseDataLoader] *)

Section LoaderProps.

Context {Opt A B : Type}.
Variable random_shuffle : list Z -> list Z.
Hypothesis random_shuffle_perm : forall l, Permutation (random_shuffle l) l.

(** When the batch function raises on every batch, on a non-empty dataset
    and for a batch size of at least 1 that leaves the float
    [len(dataset) / batch_size] above 0, the generator of [get_data]
    yields nothing and raises that exception at the first request. *)
Lemma get_data_batch_fn_raises (self : BaseDataLoader Opt A)
    (batch_fn : list A -> result B) (batch_size : Z) (shuffle : bool)
    (process_fn : BaseDataLoader Opt A -> result (list A))
    (ds : list A) (e : exn) :
  1 <= batch_size ->
  process_fn self = Ok ds -> ds <> [] ->
  batch_size < Py.len ds * 2 ^ 1075 ->
  (forall batch, batch_fn batch = Raise e) ->
  get_data random_shuffle self batch_fn batch_size shuffle (Some process_fn)
  = Gen [] (Some e).
Proof using random_shuffle_perm.
  intros Hb Hds Hne Hsmall Hraise. unfold get_data. rewrite Hds.
  destruct (batch_split_first random_shuffle random_shuffle_perm
              ds batch_size shuffle Hb Hne Hsmall)
    as (batch & batches & ->).
  unfold yield_from. simpl. by rewrite Hraise.
Qed.

(** C7, as amended: on a dataloader whose batchify methods are those of
    [BaseDataLoader], [conv_batchify], [rec_batchify] and
    [guide_batchify] raise [NotImplementedError]; and for a batch size of
    at least 1, requesting the first batch from [get_conv_data],
    [get_rec_data] or [get_guide_data] raises [NotImplementedError]
    whenever the dataset its process function returns is not empty and
    the float [len(dataset) / batch_size] is not rounded to 0, which is
    [batch_size < len(dataset) * 2 ^ 1075]. *)
Theorem batchify_not_implemented (methods : DataLoaderMethods Opt A B)
    (self : BaseDataLoader Opt A) (batch_size : Z) (shuffle : bool) :
  (forall s b, conv_batchify methods s b = conv_batchify base_methods s b) ->
  (forall s b, rec_batchify methods s b = rec_batchify base_methods s b) ->
  (forall s b, guide_batchify methods s b = guide_batchify base_methods s b) ->
  (forall batch,
     conv_batchify methods self batch = Raise NotImplementedError
     /\ rec_batchify methods self batch = Raise NotImplementedError
     /\ guide_batchify methods self batch = Raise NotImplementedError)
  /\ (1 <= batch_size ->
      (forall ds, conv_process_fn methods self = Ok ds -> ds <> [] ->
         batch_size < Py.len ds * 2 ^ 1075 ->
         next (get_conv_data random_shuffle methods self batch_size shuffle)
         = Raise NotImplementedError)
      /\ (forall ds, rec_process_fn methods self = Ok ds -> ds <> [] ->
         batch_size < Py.len ds * 2 ^ 1075 ->
         next (get_rec_data random_shuffle methods self batch_size shuffle)
         = Raise NotImplementedError)
      /\ (forall ds, guide_process_fn methods self = Ok ds -> ds <> [] ->
         batch_size < Py.len ds * 2 ^ 1075 ->
         next (get_guide_data random_shuffle methods self batch_size shuffle)
         = Raise NotImplementedError)).
Proof using random_shuffle_perm.
  intros Hconv Hrec Hguide. split.
  - intros batch. by rewrite Hconv, Hrec, Hguide.
  - intros Hb. repeat split; intros ds Hds Hne Hsmall.
    + unfold get_conv_data.
      by rewrite (get_data_batch_fn_raises self _ batch_size shuffle _ ds
                    NotImplementedError Hb Hds Hne Hsmall)
        by (intros batch; by rewrite Hconv).
    + unfold get_rec_data.
      by rewrite (get_data_batch_fn_raises self _ batch_size shuffle _ ds
                    NotImplementedError Hb Hds Hne Hsmall)
        by (intros batch; by rewrite Hrec).
    + unfold get_guide_data.
      by rewrite (get_data_batch_fn_raises self _ batch_size shuffle _ ds
                    NotImplementedError Hb Hds Hne Hsmall)
        by (intros batch; by rewrite Hguide).
Qed.

End LoaderProps.

(** C7, counterexample: on a [BaseDataLoader] with the dataset [[10; 20]],
    the first request raises [ZeroDivisionError] for [batch_size = 0],
    finds the generator exhausted for [batch_size = -1], and finds it
    exhausted for [batch_size = 2 ^ 1080] as well, where the float
    [2 / 2 ^ 1080] is 0; none raises [NotImplementedError]. *)
Lemma first_batch_without_batches :
  next (get_conv_data (B := unit) (fun l => l) base_methods
          {| opt := tt; dataset := [10; 20] |} 0 false)
  = Raise ZeroDivisionError
  /\ next (get_conv_data (B := unit) (fun l => l) base_methods
             {| opt := tt; dataset := [10; 20] |} (-1) false)
     = Raise StopIteration
  /\ next (get_conv_data (B := unit) (fun l => l) base_methods
             {| opt := tt; dataset := [10; 20] |} (2 ^ 1080) false)
     = Raise StopIteration.
Proof. repeat split; vm_compute; reflexivity. Qed.

Lemma batchify_not_implemented_witness :
  next (get_rec_data (B := unit) (@rev Z) base_methods
          {| opt := tt; dataset := [10; 20; 30] |} 2 true)
  = Raise NotImplementedError.
Proof.
  refine (proj1 (proj2 (proj2 (batchify_not_implemented (@rev Z)
            (fun l => Permutation_sym (Permutation_rev l))
            base_methods {| opt := tt; dataset := [10; 20; 30] |} 2 true
            (fun _ _ => eq_refl) (fun _ _ => eq_refl) (fun _ _ => eq_refl))
            _)) [10; 20; 30] eq_refl _ _).
  - lia.
  - discriminate.
  - vm_compute. reflexivity.
Defined.

(** ** [RecEvaluator] *)

Example rec_evaluate_ex :
  RecEvaluator.rec_metrics
    (@RecEvaluator.rec_evaluate example_metrics RecEvaluator.init [4; 8; 15] 8)
  = [("hit@1", inject_Z 0); ("ndcg@1", inject_Z 0); ("mrr@1", inject_Z 0)]%string.
Proof. reflexivity. Qed.

Section RecEvaluatorProps.

Context `{MetricLib}.

(** The three values [rec_evaluate] computes for one [k]. *)
Lemma rec_evaluate_at_metrics (self : RecEvaluator.t) (ranks : list Z)
    (label k : Z) :
  RecEvaluator.rec_metrics (RecEvaluator.rec_evaluate_at ranks label self k)
  = RecEvaluator.rec_metrics self
    ++ (if bool_decide (k <= Py.len ranks)
        then [("hit@" +:+ pretty k, HitMetric_compute ranks label k);
              ("ndcg@" +:+ pretty k, NDCGMetric_compute ranks label k);
              ("mrr@" +:+ pretty k, MRRMetric_compute ranks label k)]
        else [])
  /\ RecEvaluator.optim_metrics (RecEvaluator.rec_evaluate_at ranks label self k)
     = RecEvaluator.optim_metrics self.
Proof.
  unfold RecEvaluator.rec_evaluate_at. rewrite Z.geb_leb.
  destruct (Z.leb_spec k (Py.len ranks)) as [Hle|Hgt].
  - rewrite bool_decide_eq_true_2 by done. simpl. unfold Metrics.add.
    by rewrite <- !app_assoc.
  - rewrite bool_decide_eq_false_2 by lia. by rewrite app_nil_r.
Qed.

(** C3, as amended: a call of [rec_evaluate(ranks, label)] adds to
    [rec_metrics], for each [k] of 1, 10 and 50 with [len(ranks) >= k] and
    in this order, the values of [hit@k], [ndcg@k] and [mrr@k], and
    nothing else; it leaves [optim_metrics] as it is; so it adds three
    values for every such [k], and nine when [len(ranks) >= 50]. *)
Theorem rec_evaluate_adds (self : RecEvaluator.t) (ranks : list Z) (label : Z) :
  RecEvaluator.rec_metrics (RecEvaluator.rec_evaluate self ranks label)
  = RecEvaluator.rec_metrics self
    ++ flat_map
         (fun k => [("hit@" +:+ pretty k, HitMetric_compute ranks label k);
                    ("ndcg@" +:+ pretty k, NDCGMetric_compute ranks label k);
                    ("mrr@" +:+ pretty k, MRRMetric_compute ranks label k)])
         (filter (fun k => k <= Py.len ranks) [1; 10; 50])
  /\ RecEvaluator.optim_metrics (RecEvaluator.rec_evaluate self ranks label)
     = RecEvaluator.optim_metrics self
  /\ length (RecEvaluator.rec_metrics (RecEvaluator.rec_evaluate self ranks label))
     = Nat.add (length (RecEvaluator.rec_metrics self))
         (Nat.mul 3 (length (filter (fun k => k <= Py.len ranks) [1; 10; 50])))
  /\ (50 <= Py.len ranks ->
      length (RecEvaluator.rec_metrics (RecEvaluator.rec_evaluate self ranks label))
      = (length (RecEvaluator.rec_metrics self) + 9)%nat).
Proof.
  assert (RecEvaluator.rec_metrics (RecEvaluator.rec_evaluate self ranks label)
          = RecEvaluator.rec_metrics self
            ++ flat_map
                 (fun k => [("hit@" +:+ pretty k, HitMetric_compute ranks label k);
                            ("ndcg@" +:+ pretty k, NDCGMetric_compute ranks label k);
                            ("mrr@" +:+ pretty k, MRRMetric_compute ranks label k)])
                 (filter (fun k => k <= Py.len ranks) [1; 10; 50])) as Hadd.
  { unfold RecEvaluator.rec_evaluate. cbn [foldl].
    rewrite !(proj1 (rec_evaluate_at_metrics _ ranks label _)).
    rewrite <- !app_assoc. f_equal.
    rewrite !filter_cons, filter_nil.
    repeat case_bool_decide; repeat case_decide; try lia; reflexivity. }
  split; [exact Hadd|]. split; [|split].
  - unfold RecEvaluator.rec_evaluate. cbn [foldl].
    by rewrite !(proj2 (rec_evaluate_at_metrics _ ranks label _)).
  - rewrite Hadd, length_app. f_equal.
    generalize (filter (fun k => k <= Py.len ranks) [1; 10; 50]).
    intros ks. induction ks as [|k ks IH]; simpl; lia.
  - intros Hlen. rewrite Hadd, length_app. f_equal.
    rewrite !filter_cons, filter_nil.
    repeat case_decide; try lia; reflexivity.
Qed.

End RecEvaluatorProps.

(** C3, counterexample: for a ranking of 3 items only [k = 1] passes the
    guard [len(ranks) >= k], and the call adds 3 values, not 9. *)
Lemma rec_evaluate_short_ranks :
  RecEvaluator.rec_metrics
    (@RecEvaluator.rec_evaluate example_metrics RecEvaluator.init [4; 8; 15] 8)
  = [("hit@1", inject_Z 0); ("ndcg@1", inject_Z 0); ("mrr@1", inject_Z 0)]%string
  /\ length (RecEvaluator.rec_metrics
              (@RecEvaluator.rec_evaluate example_metrics RecEvaluator.init
                 [4; 8; 15] 8)) = 3%nat.
Proof. split; reflexivity. Qed.

Lemma rec_evaluate_adds_witness :
  length (RecEvaluator.rec_metrics
            (@RecEvaluator.rec_evaluate example_metrics RecEvaluator.init
               (Py.range 50) 8)) = 9%nat.
Proof.
  refine (proj2 (proj2 (proj2 (@rec_evaluate_adds example_metrics
            RecEvaluator.init (Py.range 50) 8))) _).
  vm_compute. discriminate.
Defined.

(** ** [ConvEvaluator] *)

Example gen_evaluate_unloaded_ex :
  let r := @ConvEvaluator.gen_evaluate example_metrics ConvEvaluator.init
             "ab" ["ab"]%string in
  ConvEvaluator.dist_cnt (fst r) = 1
  /\ length (ConvEvaluator.gen_metrics (fst r)) = 5%nat
  /\ map fst (ConvEvaluator.dist_set (fst r)) = ["dist@1"; "dist@2"]%string
  /\ snd r = Raise AttributeError.
Proof. vm_compute. repeat split; reflexivity. Qed.

(** A sentence of white space has no word: [self.ft] is not read, and the
    call goes on to the embedding metrics without a model. *)
Example gen_evaluate_wordless_ex :
  let r := @ConvEvaluator.gen_evaluate example_metrics ConvEvaluator.init
             " " [" "]%string in
  length (ConvEvaluator.gen_metrics (fst r)) = 8%nat
  /\ snd r = Ok tt.
Proof. vm_compute. repeat split; reflexivity. Qed.

(** The no-break space, code point 160, separates words. *)
Example split_no_break_space_ex :
  Str.split (String "a" (String (ascii_of_nat 160) "b")) = ["a"; "b"]%string.
Proof. reflexivity. Qed.

Example gen_evaluate_loaded_ex :
  let self := @ConvEvaluator.load_embedding example_metrics example_model
                ConvEvaluator.init in
  let r := @ConvEvaluator.gen_evaluate example_metrics self
             "a b" ["a"; "b c"]%string in
  ConvEvaluator.dist_cnt (fst r) = 1
  /\ map fst (ConvEvaluator.gen_metrics (fst r))
     = ["f1"; "bleu@1"; "bleu@2"; "bleu@3"; "bleu@4";
        "greedy"; "average"; "extreme"]%string
  /\ snd r = Ok tt.
Proof. vm_compute. repeat split; reflexivity. Qed.

Section ConvEvaluatorProps.

Context `{MetricLib}.

Import ConvEvaluator.

(** Adding n-grams to [dist_set] changes no other attribute. *)
Lemma foldl_dist_set_add (key : string) (tokens : list (list ascii)) (self : t) :
  let self' := foldl (fun self token => dist_set_add key token self) self tokens in
  gen_metrics self' = gen_metrics self
  /\ dist_cnt self' = dist_cnt self
  /\ optim_metrics self' = optim_metrics self
  /\ ft self' = ft self.
Proof.
  revert self. induction tokens as [|token tokens IH]; intros self; simpl.
  - done.
  - destruct (IH (dist_set_add key token self)) as (-> & -> & -> & ->). done.
Qed.

(** One round of the loop of [gen_evaluate] adds one [bleu@k] value. *)
Lemma gen_evaluate_at_attrs (hyp : string) (refs : list string) (self : t) (k : Z) :
  gen_metrics (gen_evaluate_at hyp refs self k)
  = gen_metrics self ++ [("bleu@" +:+ pretty k, BleuMetric_compute hyp refs k)]
  /\ dist_cnt (gen_evaluate_at hyp refs self k) = dist_cnt self
  /\ optim_metrics (gen_evaluate_at hyp refs self k) = optim_metrics self
  /\ ft (gen_evaluate_at hyp refs self k) = ft self.
Proof.
  unfold gen_evaluate_at.
  destruct (foldl_dist_set_add ("dist@" +:+ pretty k)
              (Nltk.ngrams (list_ascii_of_string hyp) (Z.to_nat k))
              (gen_metrics_add ("bleu@" +:+ pretty k)
                 (BleuMetric_compute hyp refs k) self))
    as (-> & -> & -> & ->).
  done.
Qed.

(** The attributes after the part of [gen_evaluate] that comes before the
    embedding metrics. *)
Lemma gen_evaluate_counted (hyp : string) (refs : list string) (self : t) :
  let self' := dist_cnt_incr
                 (foldl (gen_evaluate_at hyp refs)
                    (gen_metrics_add "f1" (F1Metric_compute hyp refs) self)
                    (Py.range2 1 5)) in
  gen_metrics self'
  = gen_metrics self
    ++ [("f1", F1Metric_compute hyp refs);
        ("bleu@1", BleuMetric_compute hyp refs 1);
        ("bleu@2", BleuMetric_compute hyp refs 2);
        ("bleu@3", BleuMetric_compute hyp refs 3);
        ("bleu@4", BleuMetric_compute hyp refs 4)]%string
  /\ dist_cnt self' = dist_cnt self + 1
  /\ optim_metrics self' = optim_metrics self
  /\ ft self' = ft self.
Proof.
  change (Py.range2 1 5) with [1; 2; 3; 4]. cbn [foldl].
  cbn [dist_cnt_incr gen_metrics dist_cnt optim_metrics ft].
  repeat match goal with
         | |- context [gen_evaluate_at ?h ?r ?s ?k] =>
             destruct (gen_evaluate_at_attrs h r s k) as (-> & -> & -> & ->)
         end.
  cbn [gen_metrics_add gen_metrics dist_cnt optim_metrics ft]. unfold Metrics.add.
  rewrite <- !app_assoc. done.
Qed.

(** The embedding metrics only add to [gen_metrics]. *)
Lemma gen_evaluate_split (self : t) (hyp : string) (refs : list string) :
  Py.truthy hyp = true ->
  exists embedding_metrics,
    let self' := dist_cnt_incr
                   (foldl (gen_evaluate_at hyp refs)
                      (gen_metrics_add "f1" (F1Metric_compute hyp refs) self)
                      (Py.range2 1 5)) in
    let after := fst (gen_evaluate self hyp refs) in
    gen_metrics after = gen_metrics self' ++ embedding_metrics
    /\ dist_set after = dist_set self'
    /\ dist_cnt after = dist_cnt self'
    /\ optim_metrics after = optim_metrics self'
    /\ ft after = ft self'.
Proof.
  intros Hhyp. unfold gen_evaluate. rewrite Hhyp.
  destruct (get_sent_embedding _ hyp) as [hyp_emb|e].
  - destruct (Py.list_comp _ refs) as [ref_embs|e].
    + eexists [_; _; _]. cbn -[foldl gen_evaluate_at Py.range2].
      unfold Metrics.add. rewrite <- !app_assoc. done.
    + exists []. cbn -[foldl gen_evaluate_at Py.range2].
      by rewrite app_nil_r.
  - exists []. cbn -[foldl gen_evaluate_at Py.range2].
    by rewrite app_nil_r.
Qed.

(** C6: [gen_evaluate(hyp, refs)] accumulates exactly when [hyp] is not
    empty.  For a non-empty [hyp] it adds [f1] and [bleu@1] to [bleu@4]
    to [gen_metrics] (before any embedding metric) and increments
    [dist_cnt] by exactly 1; for the empty [hyp] it returns with the
    whole object unchanged; so the object is unchanged only for the empty
    [hyp]. *)
Theorem gen_evaluate_accumulates (self : t) (hyp : string) (refs : list string) :
  (hyp <> ""%string ->
   exists embedding_metrics,
     gen_metrics (fst (gen_evaluate self hyp refs))
     = gen_metrics self
       ++ [("f1", F1Metric_compute hyp refs);
           ("bleu@1", BleuMetric_compute hyp refs 1);
           ("bleu@2", BleuMetric_compute hyp refs 2);
           ("bleu@3", BleuMetric_compute hyp refs 3);
           ("bleu@4", BleuMetric_compute hyp refs 4)]%string
       ++ embedding_metrics
     /\ dist_cnt (fst (gen_evaluate self hyp refs)) = dist_cnt self + 1)
  /\ (hyp = ""%string -> gen_evaluate self hyp refs = (self, Ok tt))
  /\ (fst (gen_evaluate self hyp refs) = self <-> hyp = ""%string).
Proof.
  assert (hyp <> ""%string ->
          exists embedding_metrics,
            gen_metrics (fst (gen_evaluate self hyp refs))
            = gen_metrics self
              ++ [("f1", F1Metric_compute hyp refs);
                  ("bleu@1", BleuMetric_compute hyp refs 1);
                  ("bleu@2", BleuMetric_compute hyp refs 2);
                  ("bleu@3", BleuMetric_compute hyp refs 3);
                  ("bleu@4", BleuMetric_compute hyp refs 4)]%string
              ++ embedding_metrics
            /\ dist_cnt (fst (gen_evaluate self hyp refs)) = dist_cnt self + 1)
    as Hadds.
  { intros Hne.
    assert (Py.truthy hyp = true) as Hhyp by (by destruct hyp).
    destruct (gen_evaluate_split self hyp refs Hhyp)
      as (embedding_metrics & Hgen & _ & Hcnt & _).
    destruct (gen_evaluate_counted hyp refs self) as (Hgen' & Hcnt' & _).
    exists embedding_metrics. cbv zeta in *.
    rewrite Hgen, Hgen', Hcnt, Hcnt'. by rewrite <- app_assoc. }
  split; [exact Hadds|]. split.
  - by intros ->.
  - split.
    + intros Hsame. destruct hyp as [|c hyp]; [done|].
      destruct Hadds as (_ & _ & Hcnt); [done|].
      rewrite Hsame in Hcnt. lia.
    + by intros ->.
Qed.

(** What [gen_evaluate] does to [dist_cnt] and [ft]; without a
    hypothesis it does nothing at all. *)
Lemma gen_evaluate_dist_cnt (self : t) (hyp : string) (refs : list string) :
  dist_cnt (fst (gen_evaluate self hyp refs))
  = (if Py.truthy hyp then dist_cnt self + 1 else dist_cnt self)
  /\ ft (fst (gen_evaluate self hyp refs)) = ft self
  /\ (Py.truthy hyp = false -> gen_evaluate self hyp refs = (self, Ok tt)).
Proof.
  destruct (Py.truthy hyp) eqn:Hhyp.
  - destruct (gen_evaluate_split self hyp refs Hhyp)
      as (embedding_metrics & _ & _ & Hcnt & _ & Hft).
    destruct (gen_evaluate_counted hyp refs self) as (_ & Hcnt' & _ & Hft').
    cbv zeta in *. rewrite Hcnt, Hcnt', Hft, Hft'. done.
  - unfold gen_evaluate. rewrite Hhyp. done.
Qed.

(** [report] only adds to [gen_metrics]. *)
Lemma report_loop_attrs (items : list (string * gset (list ascii))) (self : t) :
  dist_set (fst (report_loop items self)) = dist_set self
  /\ dist_cnt (fst (report_loop items self)) = dist_cnt self
  /\ optim_metrics (fst (report_loop items self)) = optim_metrics self
  /\ ft (fst (report_loop items self)) = ft self.
Proof.
  revert self. induction items as [|[k v] items IH]; intros self; simpl; [done|].
  destruct (Py.truediv _ _) as [q|e]; [|done].
  destruct (IH (gen_metrics_add k (AverageMetric q) self)) as (-> & -> & -> & ->).
  done.
Qed.

(** With a count that is not 0, every division of [report] succeeds. *)
Lemma report_loop_ok (items : list (string * gset (list ascii))) (self : t) :
  items = [] \/ dist_cnt self <> 0 ->
  snd (report_loop items self) = Ok tt.
Proof.
  revert self. induction items as [|[k v] items IH]; intros self Hcnt; [done|].
  destruct Hcnt as [?|Hcnt]; [done|]. simpl. unfold Py.truediv.
  destruct (Z.eqb_spec (dist_cnt self) 0) as [?|_]; [done|].
  apply IH. by right.
Qed.

(** The count of evaluated hypotheses is never negative, and it is at
    least 1 as soon as an n-gram has been recorded. *)
Lemma reachable_dist_cnt (self : t) :
  reachable self ->
  0 <= dist_cnt self /\ (dist_set self <> [] -> 1 <= dist_cnt self).
Proof.
  induction 1 as [|model self _ IH|self hyp refs _ IH|self _ IH|self _ IH].
  - done.
  - done.
  - destruct IH as [Hnn Hpos].
    destruct (gen_evaluate_dist_cnt self hyp refs) as (Hcnt & _ & Hsame).
    destruct (Py.truthy hyp).
    + rewrite Hcnt. lia.
    + by rewrite Hsame.
  - unfold report.
    by destruct (report_loop_attrs (dist_set self) self) as (-> & -> & _ & _).
  - simpl. split; [lia | done].
Qed.

(** C9: in every state of a [ConvEvaluator] that calls of its methods
    produce from [__init__], a non-empty [dist_set] implies
    [dist_cnt >= 1]; hence no division [len(v) / dist_cnt] that [report]
    performs for an entry of [dist_set] divides by zero, and [report]
    ends without an exception. *)
Theorem report_never_divides_by_zero (self : t) :
  reachable self ->
  (dist_set self <> [] -> 1 <= dist_cnt self)
  /\ (forall k v, (k, v) ∈ dist_set self ->
        is_ok (Py.truediv (Z.of_nat (size v)) (dist_cnt self)))
  /\ snd (report self) = Ok tt.
Proof.
  intros Hreach. destruct (reachable_dist_cnt self Hreach) as [_ Hpos].
  split; [exact Hpos|]. split.
  - intros k v Hin.
    assert (dist_set self <> []) as Hne by (intros Heq; rewrite Heq in Hin; by apply not_elem_of_nil in Hin).
    specialize (Hpos Hne). unfold Py.truediv.
    destruct (Z.eqb_spec (dist_cnt self) 0) as [?|_]; [lia|]. by eexists.
  - unfold report. apply report_loop_ok.
    destruct (dist_set self) as [|entry entries] eqn:Hset; [by left|].
    right. specialize (Hpos ltac:(done)). lia.
Qed.

(** Evaluating alone never sets the embedding model. *)
Lemma evaluated_ft (self : t) : evaluated self -> ft self = None.
Proof.
  induction 1 as [|self hyp refs _ IH]; [done|].
  destruct (gen_evaluate_dist_cnt self hyp refs) as (_ & -> & _). done.
Qed.

End ConvEvaluatorProps.

(** C8: [reset_metrics] restores each evaluator to its freshly
    constructed state.  After [ConvEvaluator.reset_metrics],
    [gen_metrics] and [optim_metrics] are empty, [dist_cnt] is 0 and
    [dist_set] is empty, whatever the state was, and after any number of
    [gen_evaluate] calls on a new evaluator the state is the one
    [__init__] makes; after [RecEvaluator.reset_metrics], [rec_metrics]
    and [optim_metrics] are empty and the state is the one [__init__]
    makes. *)
Theorem reset_metrics_restores `{MetricLib} :
  (forall self : ConvEvaluator.t,
     ConvEvaluator.gen_metrics (ConvEvaluator.reset_metrics self) = []
     /\ ConvEvaluator.optim_metrics (ConvEvaluator.reset_metrics self) = []
     /\ ConvEvaluator.dist_cnt (ConvEvaluator.reset_metrics self) = 0
     /\ ConvEvaluator.dist_set (ConvEvaluator.reset_metrics self) = []
     /\ ConvEvaluator.ft (ConvEvaluator.reset_metrics self)
        = ConvEvaluator.ft self)
  /\ (forall self : ConvEvaluator.t,
        ConvEvaluator.evaluated self ->
        ConvEvaluator.reset_metrics self = ConvEvaluator.init)
  /\ (forall self : RecEvaluator.t,
        RecEvaluator.rec_metrics (RecEvaluator.reset_metrics self) = []
        /\ RecEvaluator.optim_metrics (RecEvaluator.reset_metrics self) = []
        /\ RecEvaluator.reset_metrics self = RecEvaluator.init).
Proof.
  split; [done|]. split; [|done].
  intros self Heval. unfold ConvEvaluator.reset_metrics, ConvEvaluator.init.
  by rewrite (evaluated_ft self Heval).
Qed.

Lemma gen_evaluate_accumulates_witness :
  exists embedding_metrics,
    @ConvEvaluator.gen_metrics example_metrics
      (fst (@ConvEvaluator.gen_evaluate example_metrics ConvEvaluator.init "ab" ["ab"]%string))
    = @ConvEvaluator.gen_metrics example_metrics ConvEvaluator.init
      ++ [("f1", @F1Metric_compute example_metrics "ab" ["ab"]);
          ("bleu@1", @BleuMetric_compute example_metrics "ab" ["ab"] 1);
          ("bleu@2", @BleuMetric_compute example_metrics "ab" ["ab"] 2);
          ("bleu@3", @BleuMetric_compute example_metrics "ab" ["ab"] 3);
          ("bleu@4", @BleuMetric_compute example_metrics "ab" ["ab"] 4)]%string
      ++ embedding_metrics
    /\ @ConvEvaluator.dist_cnt example_metrics
         (fst (@ConvEvaluator.gen_evaluate example_metrics ConvEvaluator.init "ab" ["ab"]%string))
       = @ConvEvaluator.dist_cnt example_metrics ConvEvaluator.init + 1.
Proof.
  apply (@gen_evaluate_accumulates example_metrics ConvEvaluator.init "ab" ["ab"]%string).
  discriminate.
Defined.

Lemma report_never_divides_by_zero_witness :
  snd (@ConvEvaluator.report example_metrics
         (fst (@ConvEvaluator.gen_evaluate example_metrics ConvEvaluator.init
                 "ab" ["ab"]%string)))
  = Ok tt.
Proof.
  refine (proj2 (proj2 (@report_never_divides_by_zero example_metrics _ _))).
  apply ConvEvaluator.reach_gen_evaluate, ConvEvaluator.reach_init.
Defined.

Lemma reset_metrics_restores_witness :
  @ConvEvaluator.reset_metrics example_metrics
    (fst (@ConvEvaluator.gen_evaluate example_metrics ConvEvaluator.init
            "ab" ["ab"]%string))
  = ConvEvaluator.init.
Proof.
  refine (proj1 (proj2 (@reset_metrics_restores example_metrics)) _ _).
  apply ConvEvaluator.eval_gen_evaluate, ConvEvaluator.eval_init.
Defined.

(** * Further properties of the code *)

(** ** [merge_utt] *)

Example merge_utt_ex : merge_utt [[1; 2]; []; [3]] = [1; 2; 3].
Proof. reflexivity. Qed.

Lemma merge_utt_concat {A : Type} (conv : list (list A)) :
  merge_utt conv = concat conv.
Proof.
  unfold merge_utt. induction conv as [|utt conv IH]; simpl; [done|].
  rewrite IH. f_equal. induction utt as [|token utt IHutt]; simpl; [done|].
  by rewrite IHutt.
Qed.

(** [merge_utt] keeps every token of every utterance, in order: the
    result of a conversation continued by another is the first result
    followed by the second, its length is the sum of the lengths of the
    utterances, and a token is in it exactly when it is in an utterance. *)
Theorem merge_utt_keeps_tokens {A : Type} (conv more : list (list A)) :
  merge_utt (conv ++ more) = merge_utt conv ++ merge_utt more
  /\ Py.len (merge_utt conv) = foldr Z.add 0 (map Py.len conv)
  /\ (forall token, token ∈ merge_utt conv <-> exists utt, utt ∈ conv /\ token ∈ utt).
Proof.
  rewrite !merge_utt_concat. split; [apply concat_app|]. split.
  - unfold Py.len. induction conv as [|utt conv IH]; simpl; [done|].
    rewrite length_app. lia.
  - intros token. rewrite list_elem_of_In, in_concat.
    by setoid_rewrite list_elem_of_In.
Qed.

(** ** [get_onehot_label] *)

Example get_onehot_label_ex :
  get_onehot_label [[0; 2]; []; [-1]] 3
  = Ok [[Qdiv (inject_Z 1) (inject_Z 2); inject_Z 0; Qdiv (inject_Z 1) (inject_Z 2)];
        [inject_Z 0; inject_Z 0; inject_Z 0];
        [inject_Z 0; inject_Z 0; Qdiv (inject_Z 1) (inject_Z 1)]].
Proof. reflexivity. Qed.

Example get_onehot_label_empty_ex : get_onehot_label [] 3 = Raise RuntimeError.
Proof. reflexivity. Qed.

Example get_onehot_label_range_ex : get_onehot_label [[0]; [3]] 3 = Raise IndexError.
Proof. reflexivity. Qed.


Section OnehotProps.

Variable categories : Z.
Hypothesis categories_nonneg : 0 <= categories.






End OnehotProps.







(** ** [truncate], further *)

(** For a bound of at least 1, [truncate] is [take] or [drop]. *)
Lemma truncate_take_drop {A : Type} (vec : list A) (m : Z) truncate_tail :
  1 <= m ->
  truncate vec (Some m) truncate_tail
  = if truncate_tail then take (Z.to_nat m) vec
    else drop (length vec - Z.to_nat m) vec.
Proof.
  intros Hm. destruct (Z.le_gt_cases (Py.len vec) m) as [Hle|Hgt].
  - rewrite truncate_unchanged by eauto. unfold Py.len in Hle.
    destruct truncate_tail.
    + by rewrite take_ge by lia.
    + by replace (length vec - Z.to_nat m)%nat with 0%nat by lia.
  - by apply truncate_longer.
Qed.

(** For a bound of at least 1 the result of [truncate] has
    [min(len(vec), max_length)] elements. *)
Theorem truncate_length {A : Type} (vec : list A) (m : Z) truncate_tail :
  1 <= m ->
  Py.len (truncate vec (Some m) truncate_tail) = Z.min (Py.len vec) m.
Proof.
  intros Hm. rewrite truncate_take_drop by done. unfold Py.len.
  destruct truncate_tail.
  - rewrite length_take. lia.
  - rewrite length_drop. lia.
Qed.

Lemma truncate_length_witness :
  Py.len (truncate [1; 2; 3] (Some 2) false) = Z.min (Py.len [1; 2; 3]) 2.
Proof. apply (truncate_length [1; 2; 3] 2 false). lia. Defined.

(** Two truncations from the same side, with bounds of at least 1, are
    one truncation with the smaller bound. *)
Theorem truncate_truncate {A : Type} (vec : list A) (a b : Z) truncate_tail :
  1 <= a -> 1 <= b ->
  truncate (truncate vec (Some a) truncate_tail) (Some b) truncate_tail
  = truncate vec (Some (Z.min a b)) truncate_tail.
Proof.
  intros Ha Hb. rewrite !truncate_take_drop by lia.
  destruct truncate_tail.
  - rewrite take_take. f_equal. lia.
  - rewrite drop_drop, length_drop. f_equal. lia.
Qed.

Lemma truncate_truncate_witness :
  truncate (truncate [1; 2; 3; 4] (Some 3) false) (Some 2) false
  = truncate [1; 2; 3; 4] (Some (Z.min 3 2)) false.
Proof. apply (truncate_truncate [1; 2; 3; 4] 3 2 false); lia. Defined.

(** Truncation looks only at the side it keeps: with [truncate_tail]
    false and a bound between 1 and the length of the recent part, what
    comes before the recent part does not change the result; with
    [truncate_tail] true and a bound between 1 and the length of the
    first part, what comes after it does not. *)
Theorem truncate_app {A : Type} (old recent : list A) (m : Z) :
  1 <= m ->
  (m <= Py.len recent ->
   truncate (old ++ recent) (Some m) false = truncate recent (Some m) false)
  /\ (m <= Py.len old ->
      truncate (old ++ recent) (Some m) true = truncate old (Some m) true).
Proof.
  intros Hm. rewrite !truncate_take_drop by done. unfold Py.len. split.
  - intros Hle. rewrite length_app.
    rewrite drop_app_ge by lia. f_equal. lia.
  - intros Hle. by rewrite take_app_le by lia.
Qed.

Lemma truncate_app_witness :
  truncate ([1; 2; 3] ++ [4; 5]) (Some 2) false = truncate [4; 5] (Some 2) false.
Proof.
  refine (proj1 (truncate_app [1; 2; 3] [4; 5] 2 _) _).
  - lia.
  - vm_compute. discriminate.
Defined.

(** A negative bound is not refused: [truncate] then removes
    [-max_length] elements, the last ones when [truncate_tail] is true and
    the first ones when it is false. *)
Theorem truncate_negative {A : Type} (vec : list A) (m : Z) :
  m < 0 ->
  truncate vec (Some m) true = take (length vec - Z.to_nat (- m)) vec
  /\ truncate vec (Some m) false = drop (Z.to_nat (- m)) vec.
Proof.
  intros Hm. unfold truncate.
  pose proof (len_nonneg vec) as Hlen.
  rewrite (proj2 (Z.leb_gt _ _)) by lia.
  unfold Py.slice, Py.lower, Py.upper, Py.clamp, Py.len in *.
  destruct (Z.ltb_spec m 0) as [_|?]; [|lia].
  destruct (Z.ltb_spec (- m) 0) as [?|_]; [lia|].
  split.
  - rewrite Z.sub_0_r. change (Z.to_nat 0) with 0%nat. rewrite drop_0.
    f_equal. lia.
  - destruct (Z.le_gt_cases (- m) (Z.of_nat (length vec))) as [Hin|Hout].
    + rewrite Z.min_l by lia. apply take_ge. rewrite length_drop. lia.
    + rewrite Z.min_r by lia. rewrite Nat2Z.id.
      rewrite !drop_ge by lia. by rewrite take_nil.
Qed.

Lemma truncate_negative_witness :
  truncate [1; 2; 3] (Some (-1)) true
  = take (length [1; 2; 3] - Z.to_nat (- -1)) [1; 2; 3]
  /\ truncate [1; 2; 3] (Some (-1)) false = drop (Z.to_nat (- -1)) [1; 2; 3].
Proof. apply (truncate_negative [1; 2; 3] (-1)). lia. Defined.

(** ** [padded_tensor], further *)

Lemma truncate_fits {A : Type} (vec : list A) (m : Z) truncate_tail :
  1 <= m -> Py.len (truncate vec (Some m) truncate_tail) <= m.
Proof.
  intros Hm. rewrite truncate_take_drop by done. unfold Py.len.
  destruct truncate_tail; [rewrite length_take | rewrite length_drop]; lia.
Qed.

Lemma truncate_Forall {A : Type} (P : A -> Prop) (vec : list A) max_length
    truncate_tail :
  Forall P vec -> Forall P (truncate vec max_length truncate_tail).
Proof.
  intros Hvec. unfold truncate. destruct max_length as [m|]; [|done].
  destruct (Py.len vec <=? m); [done|].
  destruct truncate_tail; unfold Py.slice; by apply Forall_take, Forall_drop.
Qed.

(** Items truncated to a bound of at least 1 always fit a matrix of that
    width: for a non-empty list of items, with the bound, [pad_idx] and
    every token in the range of [torch.long], [padded_tensor] of the
    truncated items with [max_len] the same bound returns, and its rows,
    one per item, have exactly [max_len] entries. *)
Theorem padded_tensor_of_truncated (items : list (list Z)) (m pad_idx : Z)
    (truncate_tail right_padded : bool) :
  items <> [] -> 1 <= m ->
  Torch.int64 m -> Torch.int64 pad_idx -> Forall (Forall Torch.int64) items ->
  exists output,
    padded_tensor (map (fun item => truncate item (Some m) truncate_tail) items)
                  pad_idx right_padded (Some m)
    = Ok output
    /\ length output = length items
    /\ Forall (fun row => Py.len row = m) output
    /\ forall (i : nat) (item : list Z),
         items !! i = Some item ->
         output !! i
         = Some (padded_row right_padded m pad_idx
                   (truncate item (Some m) truncate_tail)).
Proof.
  intros Hne Hm Hsize Hpad Htokens. rewrite padded_tensor_spec.
  destruct items as [|item0 rest]; [done|].
  set (items := item0 :: rest).
  change (map (fun item => truncate item (Some m) truncate_tail) (item0 :: rest))
    with (truncate item0 (Some m) truncate_tail
          :: map (fun item => truncate item (Some m) truncate_tail) rest).
  change (truncate item0 (Some m) truncate_tail
          :: map (fun item => truncate item (Some m) truncate_tail) rest)
    with (map (fun item => truncate item (Some m) truncate_tail) items).
  assert (forall l : list (list Z), width l (Some m) = m) as Hwidth
    by (intros l; unfold width; lia).
  rewrite Hwidth.
  assert (Forall (fun item => Py.len item <= m)
                 (map (fun item => truncate item (Some m) truncate_tail) items))
    as Hfit.
  { apply Forall_forall. intros item Hin.
    apply list_elem_of_fmap in Hin as (item' & -> & _).
    by apply truncate_fits. }
  assert (Forall (Forall Torch.int64)
                 (map (fun item => truncate item (Some m) truncate_tail) items))
    as Hrange.
  { apply Forall_fmap. eapply Forall_impl; [exact Htokens|].
    intros item Hitem. by apply truncate_Forall. }
  rewrite decide_True by (by rewrite Forall_fits_int64).
  eexists. split; [done|]. split; [by rewrite !length_map|]. split.
  - apply Forall_fmap. eapply Forall_impl; [exact Hfit|].
    intros item Hitem. simpl in *. by apply padded_row_length.
  - intros i item Hi. rewrite !list_lookup_fmap, Hi. done.
Qed.

Lemma padded_tensor_of_truncated_witness :
  exists output,
    padded_tensor (map (fun item => truncate item (Some 2) false)
                       [[1; 2; 3]; []; [4]])
                  0 true (Some 2)
    = Ok output
    /\ length output = length [[1; 2; 3]; []; [4]]
    /\ Forall (fun row => Py.len row = 2) output
    /\ forall (i : nat) (item : list Z),
         [[1; 2; 3]; []; [4]] !! i = Some item ->
         output !! i
         = Some (padded_row true 2 0 (truncate item (Some 2) false)).
Proof.
  apply (padded_tensor_of_truncated [[1; 2; 3]; []; [4]] 2 0 false true).
  - discriminate.
  - lia.
  - by vm_compute.
  - by vm_compute.
  - repeat constructor; by vm_compute.
Defined.

(** Padding can be undone by [truncate]: in a matrix that
    [padded_tensor] returns, truncating row [i] to the length of item [i]
    from the side that holds the padding gives item [i] back, for every
    item when the matrix is right-padded and for every non-empty item
    when it is left-padded. *)
Theorem truncate_padded_row (items : list (list Z)) (pad_idx : Z)
    (right_padded : bool) (max_len : option Z) (output : list (list Z)) :
  padded_tensor items pad_idx right_padded max_len = Ok output ->
  forall (i : nat) (item row : list Z),
    items !! i = Some item -> output !! i = Some row ->
    right_padded = true \/ item <> [] ->
    truncate row (Some (Py.len item)) right_padded = item.
Proof.
  rewrite padded_tensor_spec.
  destruct items as [|item0 rest]; [by destruct max_len|].
  set (items := item0 :: rest). set (t := width items max_len).
  assert (1 <= t) as Ht by (subst t; unfold width; lia).
  destruct (decide (Torch.int64 t
                    /\ Torch.int64 pad_idx
                    /\ Forall (fun item => Py.len item <= t
                                           /\ Forall Torch.int64 item) items))
    as [(_ & _ & Hall)|]; [|done].
  apply Forall_fits_int64 in Hall as [Hall _].
  intros [= <-] i item row Hi Hrow Hside.
  change ((padded_row right_padded t pad_idx <$> items) !! i = Some row) in Hrow.
  rewrite list_lookup_fmap, Hi in Hrow. injection Hrow as <-.
  assert (Py.len item <= t) as Hfit.
  { rewrite Forall_forall in Hall. apply Hall. by eapply list_elem_of_lookup_2. }
  destruct item as [|x item'].
  - destruct Hside as [-> | ?]; [|done].
    unfold truncate, padded_row. simpl length. rewrite Nat.sub_0_r.
    change (Py.len (@nil Z)) with 0.
    rewrite (proj2 (Z.leb_gt _ _))
      by (unfold Py.len; simpl; rewrite length_replicate; lia).
    by rewrite slice_prefix.
  - set (item := x :: item') in *.
    rewrite truncate_take_drop by (unfold Py.len; simpl; lia).
    unfold padded_row, Py.len. rewrite Nat2Z.id.
    destruct right_padded.
    + apply take_app_length.
    + rewrite length_app, length_replicate.
      replace (Z.to_nat t - length item + length item - length item)%nat
        with (length (replicate (Z.to_nat t - length item) pad_idx))
        by (rewrite length_replicate; lia).
      apply drop_app_length.
Qed.

Lemma truncate_padded_row_witness :
  truncate [0; 0; 1; 2] (Some (Py.len [1; 2])) false = [1; 2].
Proof.
  apply (truncate_padded_row [[1; 2]; [3]] 0 false (Some 4)
           [[0; 0; 1; 2]; [0; 0; 0; 3]] eq_refl 0 [1; 2] [0; 0; 1; 2]
           eq_refl eq_refl).
  right. discriminate.
Defined.

(** Left padding is right padding seen in a mirror: padding the items to
    the left gives, when it returns, the rows that padding the reversed
    items to the right gives, each reversed; and one raises when the other
    does, with the same exception. *)
Theorem padded_tensor_mirror (items : list (list Z)) (pad_idx : Z)
    (max_len : option Z) :
  padded_tensor items pad_idx false max_len
  = (try! output := padded_tensor (map reverse items) pad_idx true max_len in
     Ok (map reverse output)).
Proof.
  rewrite !padded_tensor_spec.
  destruct items as [|item0 rest]; [by destruct max_len|].
  cbn [map].
  change (reverse item0 :: map reverse rest) with (map reverse (item0 :: rest)).
  assert (width (map reverse (item0 :: rest)) max_len
          = width (item0 :: rest) max_len) as ->.
  { unfold width. destruct max_len; [done|]. do 2 f_equal.
    rewrite map_map. apply map_ext. intros item.
    unfold Py.len. by rewrite length_reverse. }
  set (t := width (item0 :: rest) max_len).
  change (padded_row false t pad_idx item0 :: map (padded_row false t pad_idx) rest)
    with (map (padded_row false t pad_idx) (item0 :: rest)).
  change (padded_row true t pad_idx (reverse item0)
          :: map (padded_row true t pad_idx) (map reverse rest))
    with (map (padded_row true t pad_idx) (map reverse (item0 :: rest))).
  clearbody t. generalize (item0 :: rest). clear item0 rest. intros items.
  assert (Forall (fun item => Py.len item <= t /\ Forall Torch.int64 item)
                 (map reverse items)
          <-> Forall (fun item => Py.len item <= t /\ Forall Torch.int64 item)
                     items) as Hmirror.
  { rewrite Forall_fmap. apply Forall_iff. intros item. simpl.
    unfold Py.len. by rewrite length_reverse, Forall_reverse. }
  destruct (decide (Torch.int64 t
                    /\ Torch.int64 pad_idx
                    /\ Forall (fun item => Py.len item <= t
                                           /\ Forall Torch.int64 item) items))
    as [Hall|Hnall].
  - rewrite decide_True by (by rewrite Hmirror).
    cbn [bind]. f_equal. rewrite !map_map. apply map_ext. intros item.
    unfold padded_row. rewrite length_reverse.
    by rewrite reverse_app, reverse_replicate, reverse_involutive.
  - rewrite decide_False; [done|]. by rewrite Hmirror.
Qed.

(** ** [batch_split] and [get_data], further *)

Lemma yield_each_app_raise {A B : Type} (body : A -> result B) (f : A -> B)
    (pre : list A) (bad : A) (post : list A) (stop : option exn) (e : exn) :
  Forall (fun x => body x = Ok (f x)) pre ->
  body bad = Raise e ->
  yield_each body (pre ++ bad :: post) stop = Gen (map f pre) (Some e).
Proof.
  intros Hpre Hbad. induction Hpre as [|x pre Hx _ IH]; simpl.
  - by rewrite Hbad.
  - by rewrite Hx, IH.
Qed.

Section BatchSplitMore.

Context {A : Type}.
Variable random_shuffle : list Z -> list Z.

(** Without shuffling, batch [i] of [batch_split] is the slice
    [dataset[i * batch_size : (i + 1) * batch_size]], for every
    [batch_size >= 1]. *)
Theorem batch_split_unshuffled (dataset : list A) (batch_size : Z) (i : nat)
    (batch : list A) :
  1 <= batch_size ->
  yielded (batch_split random_shuffle dataset batch_size false) !! i = Some batch ->
  batch = Py.slice dataset (Some (Z.of_nat i * batch_size))
                   (Some ((Z.of_nat i + 1) * batch_size)).
Proof.
  intros Hb.
  change (batch_split random_shuffle dataset batch_size false)
    with (batch_split (fun l => l) dataset batch_size false).
  destruct (ceil_div_total (Py.len dataset) batch_size ltac:(lia))
    as (m & Hceil).
  destruct dataset as [|d rest].
  - unfold batch_split.
    change (Py.len (@nil A)) with 0. by rewrite ceil_div_zero by lia.
  - rewrite (batch_split_chunks (fun l => l) (fun l => Permutation_refl l)
               d (d :: rest) batch_size m false Hb Hceil).
    cbn [yielded]. rewrite map_nth_range, list_lookup_fmap.
    destruct (seq 0 (Z.to_nat m) !! i) as [k|] eqn:Hk; [|done].
    apply lookup_seq in Hk as [-> _]. simpl. intros [= <-].
    by rewrite slice_chunk.
Qed.

(** A batch size that is not positive is not refused: with [batch_size]
    0 the first request raises [ZeroDivisionError], also for an empty
    dataset, and with a negative [batch_size] the generator yields no
    batch at all and ends, so every element of the dataset is dropped
    without an error. *)
Theorem batch_split_without_batches (dataset : list A) (batch_size : Z)
    (shuffle : bool) :
  batch_size <= 0 ->
  batch_split random_shuffle dataset batch_size shuffle
  = Gen [] (if batch_size =? 0 then Some ZeroDivisionError else None).
Proof.
  intros Hb. unfold batch_split.
  destruct (Z.eqb_spec batch_size 0) as [->|Hne]; [done|].
  destruct (ceil_div_nonpositive (Py.len dataset) batch_size
              (len_nonneg _) ltac:(lia)) as (m & -> & Hm).
  unfold Py.range, Py.range2.
  by replace (Z.to_nat (m - 0)) with 0%nat by lia.
Qed.

End BatchSplitMore.

Lemma batch_split_unshuffled_witness :
  [30] = Py.slice [10; 20; 30] (Some (Z.of_nat 1 * 2)) (Some ((Z.of_nat 1 + 1) * 2)).
Proof.
  apply (batch_split_unshuffled (fun l => l) [10; 20; 30] 2 1 [30]).
  - lia.
  - reflexivity.
Defined.

Lemma batch_split_without_batches_witness :
  batch_split (fun l => l) [10; 20; 30] (-2) true
  = Gen [] (if -2 =? 0 then Some ZeroDivisionError else None).
Proof.
  apply (batch_split_without_batches (fun l => l) [10; 20; 30] (-2) true). lia.
Defined.

Section GetDataMore.

Context {Opt A B : Type}.
Variable random_shuffle : list Z -> list Z.

(** With a batch function that never raises, [get_data] yields one
    result per batch of [batch_split], the batch function applied to each
    batch in order, and it stops the way [batch_split] stops. *)
Theorem get_data_maps_batches (self : BaseDataLoader Opt A)
    (batch_fn : list A -> result B) (f : list A -> B) (batch_size : Z)
    (shuffle : bool) :
  (forall batch, batch_fn batch = Ok (f batch)) ->
  get_data random_shuffle self batch_fn batch_size shuffle None
  = Gen (map f (yielded (batch_split random_shuffle (dataset self)
                           batch_size shuffle)))
        (stopped (batch_split random_shuffle (dataset self) batch_size shuffle)).
Proof.
  intros Hfn. unfold get_data, yield_from.
  apply yield_each_all_ok. apply Forall_forall. intros batch _. apply Hfn.
Qed.

(** When the batch function raises on a batch, [get_data] has yielded the
    results of the batches before it, raises that exception, and never
    looks at the batches after it. *)
Theorem get_data_stops_at_failure (self : BaseDataLoader Opt A)
    (batch_fn : list A -> result B) (f : list A -> B) (batch_size : Z)
    (shuffle : bool) (before : list (list A)) (bad : list A)
    (after : list (list A)) (e : exn) :
  yielded (batch_split random_shuffle (dataset self) batch_size shuffle)
  = before ++ bad :: after ->
  Forall (fun batch => batch_fn batch = Ok (f batch)) before ->
  batch_fn bad = Raise e ->
  get_data random_shuffle self batch_fn batch_size shuffle None
  = Gen (map f before) (Some e).
Proof.
  intros Hbatches Hbefore Hbad. unfold get_data, yield_from.
  rewrite Hbatches. by apply yield_each_app_raise.
Qed.

(** On an empty dataset and for a batch size other than 0, the
    generators of a [BaseDataLoader] yield nothing and end normally: the
    batchify hooks are never called, so [NotImplementedError] is not
    raised. *)
Theorem base_loader_empty_dataset (self : BaseDataLoader Opt A) (batch_size : Z)
    (shuffle : bool) :
  dataset self = [] -> batch_size <> 0 ->
  get_conv_data (B := B) random_shuffle base_methods self batch_size shuffle
  = Gen [] None
  /\ get_rec_data (B := B) random_shuffle base_methods self batch_size shuffle
     = Gen [] None
  /\ get_guide_data (B := B) random_shuffle base_methods self batch_size shuffle
     = Gen [] None.
Proof.
  intros Hempty Hb.
  assert (batch_split random_shuffle (@nil A) batch_size shuffle = Gen [] None)
    as Hsplit.
  { unfold batch_split.
    change (Py.len (@nil A)) with 0. by rewrite ceil_div_zero. }
  unfold get_conv_data, get_rec_data, get_guide_data, get_data. simpl.
  rewrite Hempty, Hsplit. done.
Qed.

End GetDataMore.

Lemma get_data_maps_batches_witness :
  get_data (fun l => l) {| opt := tt; dataset := [10; 20; 30] |}
           (fun batch => Ok (Py.len batch)) 2 false None
  = Gen (map Py.len (yielded (batch_split (fun l => l) [10; 20; 30] 2 false)))
        (stopped (batch_split (fun l => l) [10; 20; 30] 2 false)).
Proof.
  apply (get_data_maps_batches (fun l => l)
           {| opt := tt; dataset := [10; 20; 30] |}
           (fun batch => Ok (Py.len batch)) Py.len 2 false).
  reflexivity.
Defined.

Lemma get_data_stops_at_failure_witness :
  get_data (fun l => l) {| opt := tt; dataset := [10; 20; 30] |}
           (fun batch => if Py.len batch =? 2 then Ok (Py.len batch)
                         else Raise ValueError) 2 false None
  = Gen (map Py.len [[10; 20]]) (Some ValueError).
Proof.
  apply (get_data_stops_at_failure (fun l => l)
           {| opt := tt; dataset := [10; 20; 30] |}
           (fun batch => if Py.len batch =? 2 then Ok (Py.len batch)
                         else Raise ValueError)
           Py.len 2 false [[10; 20]] [30] [] ValueError).
  - reflexivity.
  - repeat constructor.
  - reflexivity.
Defined.

Lemma base_loader_empty_dataset_witness :
  get_conv_data (A := Z) (B := unit) (fun l => l) base_methods
    {| opt := tt; dataset := [] |} 2 true
  = Gen [] None.
Proof.
  refine (proj1 (base_loader_empty_dataset (fun l => l)
                   {| opt := tt; dataset := [] |} 2 true eq_refl _)).
  lia.
Defined.

(** ** [defaultdict(set)] *)

Section DefaultDictProps.

Context {T : Type} `{Countable T}.

(** [d[key].add(token)] keeps the keys in their order and puts a new key
    last. *)
Lemma defaultdict_add_keys (key : string) (token : T) (d : DefaultDict.t T) :
  map fst (DefaultDict.add key token d)
  = if decide (key ∈ map fst d) then map fst d else map fst d ++ [key].
Proof.
  induction d as [|[k v] d IH]; cbn [DefaultDict.add map fst].
  - rewrite decide_False; [done|]. apply not_elem_of_nil.
  - destruct (decide (k = key)) as [->|Hne]; cbn [map fst].
    + rewrite decide_True; [done|]. by left.
    + rewrite IH. destruct (decide (key ∈ map fst d)) as [Hin|Hnin].
      * rewrite decide_True; [done|]. by right.
      * rewrite decide_False; [done|].
        intros Hin. apply elem_of_cons in Hin as [?|?]; [congruence | done].
Qed.

Lemma defaultdict_add_NoDup (key : string) (token : T) (d : DefaultDict.t T) :
  NoDup (map fst d) -> NoDup (map fst (DefaultDict.add key token d)).
Proof.
  intros Hnd. rewrite defaultdict_add_keys.
  destruct (decide (key ∈ map fst d)); [done|].
  apply NoDup_app. split; [done|]. split.
  - intros k Hk Hk'. apply list_elem_of_singleton in Hk'. by subst.
  - apply NoDup_singleton.
Qed.

(** A property of the entries that holds for a new entry of [key] and is
    kept when a token is added to an entry of [key] holds after
    [d[key].add(token)]. *)
Lemma defaultdict_add_Forall (P : string * gset T -> Prop) (key : string)
    (token : T) (d : DefaultDict.t T) :
  P (key, {[ token ]}) ->
  (forall v, P (key, v) -> P (key, v ∪ {[ token ]})) ->
  Forall P d -> Forall P (DefaultDict.add key token d).
Proof.
  intros Hnew Hadd. induction 1 as [|[k v] d Hentry Hd IH]; simpl.
  - by constructor.
  - destruct (decide (k = key)) as [->|Hne].
    + constructor; [by apply Hadd | done].
    + by constructor.
Qed.

(** What is recorded stays recorded. *)
Lemma defaultdict_add_mono (key : string) (token : T) (d : DefaultDict.t T)
    (k : string) (x : T) :
  (exists v, (k, v) ∈ d /\ x ∈ v) ->
  exists v, (k, v) ∈ DefaultDict.add key token d /\ x ∈ v.
Proof.
  intros (v & Hin & Hx). induction d as [|[k' v'] d IH]; simpl.
  - by apply not_elem_of_nil in Hin.
  - apply elem_of_cons in Hin as [[= <- <-]|Hin].
    + destruct (decide (k = key)) as [->|Hne].
      * exists (v ∪ {[ token ]}). split; [by left | by apply elem_of_union_l].
      * exists v. split; [by left | done].
    + destruct (IH Hin) as (w & Hw & Hxw).
      destruct (decide (k' = key)) as [->|Hne].
      * exists v. split; [by right | done].
      * exists w. split; [by right | done].
Qed.

(** The token is recorded under its key. *)
Lemma defaultdict_add_recorded (key : string) (token : T) (d : DefaultDict.t T) :
  exists v, (key, v) ∈ DefaultDict.add key token d /\ token ∈ v.
Proof.
  induction d as [|[k v] d IH]; simpl.
  - exists {[ token ]}. split; [by left | by apply elem_of_singleton].
  - destruct (decide (k = key)) as [->|Hne].
    + exists (v ∪ {[ token ]}). split; [by left|].
      apply elem_of_union_r. by apply elem_of_singleton.
    + destruct IH as (w & Hw & Htok). exists w. split; [by right | done].
Qed.

End DefaultDictProps.

(** Every window of [ngrams(sequence, n)] has [n] elements. *)
Lemma ngrams_length {A : Type} (sequence : list A) (n : nat) :
  Forall (fun token => length token = n) (Nltk.ngrams sequence n).
Proof.
  induction sequence as [|x sequence IH]; simpl; [constructor|].
  case_decide as Hn; [|constructor].
  constructor; [|done].
  destruct n; [done|]. simpl. rewrite length_take. simpl in Hn. lia.
Qed.

(** ** [ConvEvaluator], further *)

Section ConvEvaluatorMore.

Context `{MetricLib}.

Import ConvEvaluator.

Lemma foldl_dist_set_add_dist_set (key : string) (tokens : list (list ascii))
    (self : t) :
  dist_set (foldl (fun self token => dist_set_add key token self) self tokens)
  = foldl (fun d token => DefaultDict.add key token d) (dist_set self) tokens.
Proof.
  revert self. induction tokens as [|token tokens IH]; intros self; simpl; [done|].
  by rewrite IH.
Qed.

(** The n-grams that one call of [gen_evaluate] records, for each [k] in
    turn. *)
Lemma gen_evaluate_dist_set (self : t) (hyp : string) (refs : list string) :
  dist_set (fst (gen_evaluate self hyp refs))
  = if Py.truthy hyp
    then foldl (fun d k =>
                  foldl (fun d token => DefaultDict.add ("dist@" +:+ pretty k) token d)
                        d (Nltk.ngrams (list_ascii_of_string hyp) (Z.to_nat k)))
               (dist_set self) [1; 2; 3; 4]
    else dist_set self.
Proof.
  destruct (Py.truthy hyp) eqn:Hhyp.
  - destruct (gen_evaluate_split self hyp refs Hhyp) as (? & _ & -> & _).
    change (Py.range2 1 5) with [1; 2; 3; 4]. cbn [foldl dist_cnt_incr dist_set].
    unfold gen_evaluate_at.
    repeat (rewrite foldl_dist_set_add_dist_set; cbn [gen_metrics_add dist_set]).
    done.
  - unfold gen_evaluate. by rewrite Hhyp.
Qed.

(** A property of [dist_set] that every recording of a [k]-gram under
    [dist@k] keeps is kept by [gen_evaluate]. *)
Lemma gen_evaluate_dist_set_ind (Inv : DefaultDict.t (list ascii) -> Prop)
    (self : t) (hyp : string) (refs : list string) :
  (forall k token d,
     1 <= k <= 4 -> length token = Z.to_nat k ->
     Inv d -> Inv (DefaultDict.add ("dist@" +:+ pretty k) token d)) ->
  Inv (dist_set self) ->
  Inv (dist_set (fst (gen_evaluate self hyp refs))).
Proof.
  intros Hstep Hinv. rewrite gen_evaluate_dist_set.
  destruct (Py.truthy hyp); [|done].
  assert (forall k d, 1 <= k <= 4 -> Inv d ->
            Inv (foldl (fun d token => DefaultDict.add ("dist@" +:+ pretty k) token d)
                       d (Nltk.ngrams (list_ascii_of_string hyp) (Z.to_nat k))))
    as Hk.
  { intros k d Hrange.
    pose proof (ngrams_length (list_ascii_of_string hyp) (Z.to_nat k)) as Hlen.
    revert d. induction Hlen as [|token tokens Htoken _ IH]; intros d Hd; [done|].
    simpl. apply IH. by apply Hstep. }
  cbn [foldl]. repeat apply Hk; (lia || done).
Qed.

(** The key [dist@k] determines [k]. *)
Lemma dist_key_inj (k k' : Z) :
  1 <= k <= 4 -> 1 <= k' <= 4 ->
  ("dist@" +:+ pretty k)%string = ("dist@" +:+ pretty k')%string -> k = k'.
Proof.
  intros Hk Hk' Heq.
  assert (k = 1 \/ k = 2 \/ k = 3 \/ k = 4) as [->|[->|[->| ->]]] by lia;
    assert (k' = 1 \/ k' = 2 \/ k' = 3 \/ k' = 4) as [->|[->|[->| ->]]] by lia;
    (done || (vm_compute in Heq; discriminate)).
Qed.

(** The shape of [dist_set] in every state that calls of the methods
    produce from [__init__]: its keys are distinct and among [dist@1],
    [dist@2], [dist@3] and [dist@4], so there are at most four; the set
    under [dist@k] is not empty and holds only tuples of [k] characters. *)
Theorem dist_set_shape (self : t) :
  reachable self ->
  NoDup (map fst (dist_set self))
  /\ (length (dist_set self) <= 4)%nat
  /\ Forall (fun entry =>
               exists k, 1 <= k <= 4
                 /\ fst entry = ("dist@" +:+ pretty k)%string
                 /\ snd entry <> ∅
                 /\ forall token, token ∈ snd entry -> length token = Z.to_nat k)
            (dist_set self).
Proof.
  intros Hreach.
  assert (NoDup (map fst (dist_set self))
          /\ Forall (fun entry =>
                       exists k, 1 <= k <= 4
                         /\ fst entry = ("dist@" +:+ pretty k)%string
                         /\ snd entry <> ∅
                         /\ forall token, token ∈ snd entry ->
                                          length token = Z.to_nat k)
                    (dist_set self)) as [Hnd Hall].
  { induction Hreach as [|model self _ IH|self hyp refs _ IH|self _ IH|self _ IH].
    - split; constructor.
    - done.
    - apply (gen_evaluate_dist_set_ind
               (fun d => NoDup (map fst d)
                         /\ Forall (fun entry =>
                                      exists k, 1 <= k <= 4
                                        /\ fst entry = ("dist@" +:+ pretty k)%string
                                        /\ snd entry <> ∅
                                        /\ forall token, token ∈ snd entry ->
                                                         length token = Z.to_nat k)
                                   d)); [|done].
      intros k token d Hk Hlen [Hnd Hall]. split.
      + by apply defaultdict_add_NoDup.
      + apply defaultdict_add_Forall; [| |done].
        * exists k. simpl. split; [done|]. split; [done|]. split.
          -- apply non_empty_singleton_L.
          -- intros token' Hin. apply elem_of_singleton in Hin. by subst.
        * intros v (k' & Hk' & Hkey & Hne & Htokens). simpl in *.
          apply dist_key_inj in Hkey as <-; [|done|done].
          exists k. simpl. split; [done|]. split; [done|]. split.
          -- intros Hempty. apply (not_elem_of_empty (C := gset (list ascii)) token).
             rewrite <- Hempty. apply elem_of_union_r. by apply elem_of_singleton.
          -- intros token' Hin. apply elem_of_union in Hin as [Hin|Hin].
             ++ by apply Htokens.
             ++ apply elem_of_singleton in Hin. by subst.
    - unfold report.
      by destruct (report_loop_attrs (dist_set self) self) as (-> & _).
    - split; constructor. }
  split; [done|]. split; [|done].
  assert (incl (map fst (dist_set self)) ["dist@1"; "dist@2"; "dist@3"; "dist@4"]%string)
    as Hincl.
  { intros key Hkey. apply in_map_iff in Hkey as (entry & <- & Hentry).
    rewrite Forall_forall in Hall.
    destruct (Hall entry) as (k & Hk & -> & _); [by apply list_elem_of_In|].
    assert (k = 1 \/ k = 2 \/ k = 3 \/ k = 4) as [->|[->|[->| ->]]] by lia;
      vm_compute; tauto. }
  apply NoDup_ListNoDup in Hnd.
  pose proof (NoDup_incl_length Hnd Hincl) as Hlen.
  rewrite length_map in Hlen. exact Hlen.
Qed.

(** Adding the tokens of a list records each of them and keeps what was
    recorded. *)
Lemma foldl_add_recorded (key : string) (tokens : list (list ascii))
    (d : DefaultDict.t (list ascii)) :
  (forall k x, (exists v, (k, v) ∈ d /\ x ∈ v) ->
     exists v, (k, v) ∈ foldl (fun d token => DefaultDict.add key token d) d tokens
               /\ x ∈ v)
  /\ (forall token, token ∈ tokens ->
       exists v, (key, v) ∈ foldl (fun d token => DefaultDict.add key token d) d tokens
                 /\ token ∈ v).
Proof.
  revert d. induction tokens as [|token tokens IH]; intros d.
  - split; [done|]. intros token Hin. by apply not_elem_of_nil in Hin.
  - destruct (IH (DefaultDict.add key token d)) as [Hmono Hrec]. split.
    + intros k x Hx. simpl. by apply Hmono, defaultdict_add_mono.
    + intros token' Hin. simpl. apply elem_of_cons in Hin as [->|Hin].
      * apply Hmono, defaultdict_add_recorded.
      * by apply Hrec.
Qed.

(** [gen_evaluate] records n-grams and forgets none: a tuple that is in
    [dist_set] under a key before the call is there after it; and after
    a call with a non-empty [hyp], every window of [k] consecutive
    characters of [hyp], for [k] from 1 to 4, is in the set under
    [dist@k]. *)
Theorem gen_evaluate_records_ngrams (self : t) (hyp : string) (refs : list string) :
  (forall key x,
     (exists v, (key, v) ∈ dist_set self /\ x ∈ v) ->
     exists v, (key, v) ∈ dist_set (fst (gen_evaluate self hyp refs)) /\ x ∈ v)
  /\ (hyp <> ""%string ->
      forall k token,
        1 <= k <= 4 ->
        token ∈ Nltk.ngrams (list_ascii_of_string hyp) (Z.to_nat k) ->
        exists v,
          (("dist@" +:+ pretty k)%string, v) ∈ dist_set (fst (gen_evaluate self hyp refs))
          /\ token ∈ v).
Proof.
  rewrite gen_evaluate_dist_set.
  destruct hyp as [|c hyp']; [split; done|].
  set (hyp := String c hyp'). cbn [Py.truthy foldl].
  set (tokens := fun k : Z => Nltk.ngrams (list_ascii_of_string hyp) (Z.to_nat k)).
  set (d0 := dist_set self).
  set (d1 := foldl (fun d token => DefaultDict.add ("dist@" +:+ pretty 1) token d)
                   d0 (tokens 1)).
  set (d2 := foldl (fun d token => DefaultDict.add ("dist@" +:+ pretty 2) token d)
                   d1 (tokens 2)).
  set (d3 := foldl (fun d token => DefaultDict.add ("dist@" +:+ pretty 3) token d)
                   d2 (tokens 3)).
  destruct (foldl_add_recorded ("dist@" +:+ pretty 1) (tokens 1) d0) as [Hm1 Hr1].
  destruct (foldl_add_recorded ("dist@" +:+ pretty 2) (tokens 2) d1) as [Hm2 Hr2].
  destruct (foldl_add_recorded ("dist@" +:+ pretty 3) (tokens 3) d2) as [Hm3 Hr3].
  destruct (foldl_add_recorded ("dist@" +:+ pretty 4) (tokens 4) d3) as [Hm4 Hr4].
  fold d1 in Hm1, Hr1. fold d2 in Hm2, Hr2. fold d3 in Hm3, Hr3.
  split.
  - intros key x Hx. by apply Hm4, Hm3, Hm2, Hm1.
  - intros _ k token Hk Hin.
    assert (k = 1 \/ k = 2 \/ k = 3 \/ k = 4) as [->|[->|[->| ->]]] by lia.
    + by apply Hm4, Hm3, Hm2, Hr1.
    + by apply Hm4, Hm3, Hr2.
    + by apply Hm4, Hr3.
    + by apply Hr4.
Qed.

(** [_get_sent_embedding] with and without an embedding model. *)
Lemma get_sent_embedding_loaded (self : t) (model : string -> Vec)
    (sent : string) :
  ft self = Some model ->
  get_sent_embedding self sent = Ok (map model (Str.split sent)).
Proof.
  intros Hft. unfold get_sent_embedding.
  induction (Str.split sent) as [|token tokens IH]; [done|].
  cbn [Py.list_comp]. unfold ft_getitem at 1. rewrite Hft.
  cbn [bind]. by rewrite IH.
Qed.

Lemma get_sent_embedding_unloaded (self : t) (sent : string) :
  ft self = None ->
  get_sent_embedding self sent
  = match Str.split sent with
    | [] => Ok []
    | _ :: _ => Raise AttributeError
    end.
Proof.
  intros Hft. unfold get_sent_embedding.
  destruct (Str.split sent) as [|token tokens]; [done|].
  cbn [Py.list_comp]. unfold ft_getitem at 1. by rewrite Hft.
Qed.

Lemma ref_embs_loaded (self : t) (model : string -> Vec) (refs : list string) :
  ft self = Some model ->
  Py.list_comp (get_sent_embedding self) refs
  = Ok (map (fun ref => map model (Str.split ref)) refs).
Proof.
  intros Hft. induction refs as [|ref refs IH]; [done|].
  cbn [Py.list_comp]. rewrite (get_sent_embedding_loaded _ model) by done.
  cbn [bind map]. by rewrite IH.
Qed.

Lemma ref_embs_unloaded (self : t) (refs : list string) :
  ft self = None ->
  Py.list_comp (get_sent_embedding self) refs
  = if decide (Forall (fun ref => Str.split ref = []) refs)
    then Ok (map (fun _ => []) refs)
    else Raise AttributeError.
Proof.
  intros Hft. induction refs as [|ref refs IH]; [done|].
  cbn [Py.list_comp]. rewrite get_sent_embedding_unloaded by done.
  destruct (Str.split ref) as [|token tokens] eqn:Hsplit.
  - cbn [bind]. rewrite IH.
    destruct (decide (Forall (fun ref => Str.split ref = []) refs)) as [Hall|Hnall].
    + by rewrite decide_True by (by constructor).
    + rewrite decide_False; [done|]. intros Hall. apply Hnall.
      by apply Forall_cons in Hall as [_ ?].
  - rewrite decide_False; [done|]. intros Hall.
    apply Forall_cons in Hall as [Hnil _]. congruence.
Qed.

(** [gen_evaluate] with an embedding model loaded. *)
Lemma gen_evaluate_loaded_eq (self : t) (model : string -> Vec) (hyp : string)
    (refs : list string) :
  ft self = Some model -> Py.truthy hyp = true ->
  gen_evaluate self hyp refs
  = (gen_metrics_add "extreme"
       (VectorExtrema_compute (map model (Str.split hyp))
          (map (fun ref => map model (Str.split ref)) refs))
       (gen_metrics_add "average"
          (EmbeddingAverage_compute (map model (Str.split hyp))
             (map (fun ref => map model (Str.split ref)) refs))
          (gen_metrics_add "greedy"
             (GreedyMatch_compute (map model (Str.split hyp))
                (map (fun ref => map model (Str.split ref)) refs))
             (dist_cnt_incr
                (foldl (gen_evaluate_at hyp refs)
                   (gen_metrics_add "f1" (F1Metric_compute hyp refs) self)
                   (Py.range2 1 5))))),
     Ok tt).
Proof.
  intros Hft Hhyp. unfold gen_evaluate. rewrite Hhyp.
  destruct (gen_evaluate_counted hyp refs self) as (_ & _ & _ & Hft').
  cbv zeta in Hft'. rewrite Hft in Hft'.
  rewrite (get_sent_embedding_loaded _ model) by exact Hft'.
  by rewrite (ref_embs_loaded _ model) by exact Hft'.
Qed.

(** [gen_evaluate] without an embedding model, when [hyp] or a reference
    has a word. *)
Lemma gen_evaluate_unloaded_eq (self : t) (hyp : string) (refs : list string) :
  ft self = None -> Py.truthy hyp = true ->
  Str.split hyp <> [] \/ Exists (fun ref => Str.split ref <> []) refs ->
  gen_evaluate self hyp refs
  = (dist_cnt_incr
       (foldl (gen_evaluate_at hyp refs)
          (gen_metrics_add "f1" (F1Metric_compute hyp refs) self)
          (Py.range2 1 5)),
     Raise AttributeError).
Proof.
  intros Hft Hhyp Hword. unfold gen_evaluate. rewrite Hhyp.
  destruct (gen_evaluate_counted hyp refs self) as (_ & _ & _ & Hft').
  cbv zeta in Hft'. rewrite Hft in Hft'.
  rewrite get_sent_embedding_unloaded by exact Hft'.
  destruct (Str.split hyp) as [|token tokens]; [|done].
  rewrite ref_embs_unloaded by exact Hft'.
  rewrite decide_False; [done|]. intros Hall.
  destruct Hword as [?|Hex]; [done|].
  apply Exists_exists in Hex as (ref & Hin & Hsplit).
  rewrite Forall_forall in Hall. by apply Hsplit, Hall.
Qed.

(** [gen_evaluate] without an embedding model, when neither [hyp] nor a
    reference has a word: [self.ft] is never read. *)
Lemma gen_evaluate_wordless (self : t) (hyp : string) (refs : list string) :
  ft self = None -> Py.truthy hyp = true ->
  Str.split hyp = [] -> Forall (fun ref => Str.split ref = []) refs ->
  snd (gen_evaluate self hyp refs) = Ok tt.
Proof.
  intros Hft Hhyp Hsplit Hall. unfold gen_evaluate. rewrite Hhyp.
  destruct (gen_evaluate_counted hyp refs self) as (_ & _ & _ & Hft').
  cbv zeta in Hft'. rewrite Hft in Hft'.
  rewrite get_sent_embedding_unloaded by exact Hft'. rewrite Hsplit.
  rewrite ref_embs_unloaded by exact Hft'.
  by rewrite decide_True by done.
Qed.

(** How a call of [gen_evaluate] ends: it raises [AttributeError] exactly
    when [hyp] is not empty, no embedding model has been loaded, and
    [hyp] or one of the references has a word, which makes the call read
    [self.ft]; in every other case it returns normally. *)
Theorem gen_evaluate_outcome (self : t) (hyp : string) (refs : list string) :
  snd (gen_evaluate self hyp refs)
  = (if Py.truthy hyp
     then match ft self with
          | Some _ => Ok tt
          | None =>
              if decide (Str.split hyp = []
                         /\ Forall (fun ref => Str.split ref = []) refs)
              then Ok tt
              else Raise AttributeError
          end
     else Ok tt)
  /\ (snd (gen_evaluate self hyp refs) = Raise AttributeError
      <-> hyp <> ""%string
          /\ ft self = None
          /\ (Str.split hyp <> []
              \/ Exists (fun ref => Str.split ref <> []) refs))
  /\ (snd (gen_evaluate self hyp refs) = Ok tt
      <-> hyp = ""%string
          \/ ft self <> None
          \/ (Str.split hyp = []
              /\ Forall (fun ref => Str.split ref = []) refs)).
Proof.
  assert (Str.split hyp <> [] \/ Exists (fun ref => Str.split ref <> []) refs
          <-> ~ (Str.split hyp = []
                 /\ Forall (fun ref => Str.split ref = []) refs)) as Hword.
  { split.
    - intros [Hhyp|Hex] [Hsplit Hall]; [done|].
      apply Exists_exists in Hex as (ref & Hin & Hsplit').
      rewrite Forall_forall in Hall. by apply Hsplit', Hall.
    - intros Hnot. destruct (decide (Str.split hyp = [])) as [Hsplit|?];
        [|by left].
      right. apply not_Forall_Exists; [intros ref; apply _|].
      intros Hall. by apply Hnot. }
  assert (snd (gen_evaluate self hyp refs)
          = (if Py.truthy hyp
             then match ft self with
                  | Some _ => Ok tt
                  | None =>
                      if decide (Str.split hyp = []
                                 /\ Forall (fun ref => Str.split ref = []) refs)
                      then Ok tt
                      else Raise AttributeError
                  end
             else Ok tt)) as Hsnd.
  { destruct (Py.truthy hyp) eqn:Hhyp.
    - destruct (ft self) as [model|] eqn:Hft.
      + by rewrite (gen_evaluate_loaded_eq self model hyp refs Hft Hhyp).
      + destruct (decide (Str.split hyp = []
                          /\ Forall (fun ref => Str.split ref = []) refs))
          as [[Hsplit Hall]|Hnot].
        * by apply gen_evaluate_wordless.
        * by rewrite (gen_evaluate_unloaded_eq self hyp refs Hft Hhyp)
            by (by apply Hword).
    - unfold gen_evaluate. by rewrite Hhyp. }
  split; [exact Hsnd|]. rewrite Hsnd, Hword.
  destruct hyp as [|c hyp'].
  - cbn [Py.truthy]. split; split; try done.
    + by intros [? _].
    + intros _. by left.
  - change (Py.truthy (String c hyp')) with true. cbv iota.
    destruct (ft self) as [model|].
    + split; split; try done.
      * by intros (_ & ? & _).
      * intros _. right. by left.
    + destruct (decide (Str.split (String c hyp') = []
                        /\ Forall (fun ref => Str.split ref = []) refs))
        as [Hyes|Hnot].
      * split; split; try done.
        -- by intros (_ & _ & ?).
        -- intros _. right. by right.
      * split; split; try done.
        intros [?|[?|?]]; done.
Qed.

(** With an embedding model loaded, a call of [gen_evaluate] with a
    non-empty [hyp] adds exactly eight values to [gen_metrics], in this
    order: [f1], [bleu@1] to [bleu@4], [greedy], [average] and [extreme],
    the last three computed from the vectors of the words of [hyp] and of
    each reference. *)
Theorem gen_evaluate_loaded (self : t) (model : string -> Vec) (hyp : string)
    (refs : list string) :
  ft self = Some model -> hyp <> ""%string ->
  gen_metrics (fst (gen_evaluate self hyp refs))
  = gen_metrics self
    ++ [("f1", F1Metric_compute hyp refs);
        ("bleu@1", BleuMetric_compute hyp refs 1);
        ("bleu@2", BleuMetric_compute hyp refs 2);
        ("bleu@3", BleuMetric_compute hyp refs 3);
        ("bleu@4", BleuMetric_compute hyp refs 4);
        ("greedy", GreedyMatch_compute (map model (Str.split hyp))
                     (map (fun ref => map model (Str.split ref)) refs));
        ("average", EmbeddingAverage_compute (map model (Str.split hyp))
                      (map (fun ref => map model (Str.split ref)) refs));
        ("extreme", VectorExtrema_compute (map model (Str.split hyp))
                      (map (fun ref => map model (Str.split ref)) refs))]%string.
Proof.
  intros Hft Hne.
  assert (Py.truthy hyp = true) as Hhyp by (by destruct hyp).
  rewrite (gen_evaluate_loaded_eq self model hyp refs Hft Hhyp).
  destruct (gen_evaluate_counted hyp refs self) as (Hgen & _).
  cbv zeta in Hgen.
  cbn [fst gen_metrics_add gen_metrics]. rewrite Hgen.
  unfold Metrics.add. by rewrite <- !app_assoc.
Qed.

(** On an evaluator that has only been constructed and used for
    [gen_evaluate], no embedding model exists: every call with a
    non-empty [hyp], in which [hyp] or one of the references has a word,
    raises [AttributeError], after it has added the five values [f1] and
    [bleu@1] to [bleu@4] and no other. *)
Theorem gen_evaluate_without_embedding (self : t) (hyp : string)
    (refs : list string) :
  evaluated self -> hyp <> ""%string ->
  Str.split hyp <> [] \/ Exists (fun ref => Str.split ref <> []) refs ->
  snd (gen_evaluate self hyp refs) = Raise AttributeError
  /\ gen_metrics (fst (gen_evaluate self hyp refs))
     = gen_metrics self
       ++ [("f1", F1Metric_compute hyp refs);
           ("bleu@1", BleuMetric_compute hyp refs 1);
           ("bleu@2", BleuMetric_compute hyp refs 2);
           ("bleu@3", BleuMetric_compute hyp refs 3);
           ("bleu@4", BleuMetric_compute hyp refs 4)]%string.
Proof.
  intros Heval Hne Hword.
  assert (Py.truthy hyp = true) as Hhyp by (by destruct hyp).
  rewrite (gen_evaluate_unloaded_eq self hyp refs (evaluated_ft self Heval) Hhyp
             Hword).
  split; [done|]. cbn [fst].
  by destruct (gen_evaluate_counted hyp refs self) as (-> & _).
Qed.

(** [dist_cnt] counts the non-empty hypotheses: after [gen_evaluate] has
    been called for each example of a list, [dist_cnt] has grown by the
    number of examples whose [hyp] is not empty. *)
Theorem dist_cnt_counts (self : t) (examples : list (string * list string)) :
  dist_cnt (foldl (fun self example =>
                     fst (gen_evaluate self (fst example) (snd example)))
                  self examples)
  = dist_cnt self
    + Py.len (filter (fun example => fst example <> ""%string) examples).
Proof.
  revert self. induction examples as [|[hyp refs] examples IH]; intros self.
  - simpl. unfold Py.len. simpl. lia.
  - cbn [foldl fst snd]. rewrite IH.
    destruct (gen_evaluate_dist_cnt self hyp refs) as (-> & _).
    destruct hyp as [|c hyp']; cbn [Py.truthy].
    + by rewrite filter_cons_False by (intros Hne; by apply Hne).
    + rewrite filter_cons_True by done. unfold Py.len. simpl length. lia.
Qed.

(** The values that [report] adds when every division succeeds. *)
Lemma report_loop_metrics (items : list (string * gset (list ascii))) (self : t) :
  items = [] \/ dist_cnt self <> 0 ->
  gen_metrics (fst (report_loop items self))
  = gen_metrics self
    ++ map (fun entry =>
              (fst entry,
               AverageMetric (Qdiv (inject_Z (Z.of_nat (size (snd entry))))
                                   (inject_Z (dist_cnt self)))))
           items.
Proof.
  revert self. induction items as [|[k v] items IH]; intros self Hcnt.
  - simpl. by rewrite app_nil_r.
  - destruct Hcnt as [?|Hcnt]; [done|]. simpl. unfold Py.truediv.
    destruct (Z.eqb_spec (dist_cnt self) 0) as [?|_]; [done|].
    rewrite IH by (by right). cbn [gen_metrics_add gen_metrics dist_cnt].
    unfold Metrics.add. by rewrite <- app_assoc.
Qed.

(** In every state that calls of the methods produce from [__init__],
    [report] adds to [gen_metrics] one value per key of [dist_set], in the
    order of the keys: under [dist@k] the number of distinct [k]-grams
    divided by [dist_cnt].  It changes nothing else, and it does not
    remember that it has reported: a second [report] adds the same values
    once more. *)
Theorem report_adds_ratios (self : t) :
  reachable self ->
  gen_metrics (fst (report self))
  = gen_metrics self
    ++ map (fun entry =>
              (fst entry,
               AverageMetric (Qdiv (inject_Z (Z.of_nat (size (snd entry))))
                                   (inject_Z (dist_cnt self)))))
           (dist_set self)
  /\ dist_set (fst (report self)) = dist_set self
  /\ dist_cnt (fst (report self)) = dist_cnt self
  /\ optim_metrics (fst (report self)) = optim_metrics self
  /\ gen_metrics (fst (report (fst (report self))))
     = gen_metrics self
       ++ map (fun entry =>
                 (fst entry,
                  AverageMetric (Qdiv (inject_Z (Z.of_nat (size (snd entry))))
                                      (inject_Z (dist_cnt self)))))
              (dist_set self)
       ++ map (fun entry =>
                 (fst entry,
                  AverageMetric (Qdiv (inject_Z (Z.of_nat (size (snd entry))))
                                      (inject_Z (dist_cnt self)))))
              (dist_set self).
Proof.
  intros Hreach.
  assert (dist_set self = [] \/ dist_cnt self <> 0) as Hcnt.
  { destruct (reachable_dist_cnt self Hreach) as [_ Hpos].
    destruct (dist_set self) as [|entry entries]; [by left|].
    right. specialize (Hpos ltac:(done)). lia. }
  destruct (report_loop_attrs (dist_set self) self) as (Hset & Hc & Hoptim & _).
  unfold report at 1 2 3 4.
  split; [by apply report_loop_metrics|].
  split; [done|]. split; [done|]. split; [done|].
  unfold report at 1. fold (report self).
  rewrite report_loop_metrics.
  - unfold report at 1 2 3. rewrite Hset, Hc.
    rewrite report_loop_metrics by done. by rewrite <- app_assoc.
  - unfold report. by rewrite Hset, Hc.
Qed.

End ConvEvaluatorMore.

Lemma dist_set_shape_witness :
  (length (@ConvEvaluator.dist_set example_metrics
             (fst (@ConvEvaluator.gen_evaluate example_metrics
                     ConvEvaluator.init "abc" ["ab"]%string))) <= 4)%nat.
Proof.
  refine (proj1 (proj2 (@dist_set_shape example_metrics _ _))).
  apply ConvEvaluator.reach_gen_evaluate, ConvEvaluator.reach_init.
Defined.

Lemma gen_evaluate_records_ngrams_witness :
  exists v,
    (("dist@" +:+ pretty 2)%string, v)
    ∈ @ConvEvaluator.dist_set example_metrics
        (fst (@ConvEvaluator.gen_evaluate example_metrics ConvEvaluator.init
                "abc" ["ab"]%string))
    /\ ["b"; "c"]%char ∈ v.
Proof.
  refine (proj2 (@gen_evaluate_records_ngrams example_metrics ConvEvaluator.init
                   "abc" ["ab"]%string) _ 2 ["b"; "c"]%char _ _).
  - discriminate.
  - lia.
  - vm_compute. apply list_elem_of_In. right. left. reflexivity.
Defined.

Lemma gen_evaluate_loaded_witness :
  length (@ConvEvaluator.gen_metrics example_metrics
            (fst (@ConvEvaluator.gen_evaluate example_metrics
                    (@ConvEvaluator.load_embedding example_metrics example_model
                       ConvEvaluator.init)
                    "a b" ["a"; "b c"]%string)))
  = 8%nat.
Proof.
  rewrite (@gen_evaluate_loaded example_metrics
             (@ConvEvaluator.load_embedding example_metrics example_model
                ConvEvaluator.init)
             example_model "a b" ["a"; "b c"]%string eq_refl).
  - reflexivity.
  - discriminate.
Defined.

Lemma gen_evaluate_without_embedding_witness :
  snd (@ConvEvaluator.gen_evaluate example_metrics
         (fst (@ConvEvaluator.gen_evaluate example_metrics ConvEvaluator.init
                 "ab" ["ab"]%string))
         "cd" []) = Raise AttributeError.
Proof.
  refine (proj1 (@gen_evaluate_without_embedding example_metrics _ "cd" [] _ _ _)).
  - apply ConvEvaluator.eval_gen_evaluate, ConvEvaluator.eval_init.
  - discriminate.
  - left. vm_compute. discriminate.
Defined.

Lemma report_adds_ratios_witness :
  @ConvEvaluator.dist_cnt example_metrics
    (fst (@ConvEvaluator.report example_metrics
            (fst (@ConvEvaluator.gen_evaluate example_metrics ConvEvaluator.init
                    "ab" ["ab"]%string))))
  = @ConvEvaluator.dist_cnt example_metrics
      (fst (@ConvEvaluator.gen_evaluate example_metrics ConvEvaluator.init
              "ab" ["ab"]%string)).
Proof.
  refine (proj1 (proj2 (proj2 (@report_adds_ratios example_metrics _ _)))).
  apply ConvEvaluator.reach_gen_evaluate, ConvEvaluator.reach_init.
Defined.
